(** * Redpanda Console backend: payload dispatch engine, Avro framed codec
    and schema-registry client.

  A shallow embedding of

    - [backend/pkg/serde/service.go]   (the dispatch engine: [NewService],
      [DeserializeRecord], [deserializePayload], [SerializeRecord]),
    - [backend/pkg/serde/avro.go]      (the Avro framed codec),
    - [backend/pkg/schema/client.go]   (the registry REST client),

  with the properties the specification states about them.

  Conventions.  A Go [[]byte] is an [option (list byte)]: [None] is the nil
  slice, [Some []] the empty non-nil slice.  A Go [int] or [uint32] is a [Z].
  A Go pair [(T, error)] whose every return is either [(nil, err)] or
  [(v, nil)] is a [result]; where the code returns both components at once
  the pair is kept.  Code that talks to the outside (codecs, the registry)
  is written in a state monad over an abstract world; the engine keeps in
  addition a ghost log of the calls it makes, so that "is never invoked"
  is a statement about that log. *)

From Stdlib Require Import ZArith String List Bool Lia Permutation.
From Stdlib Require Import Strings.Byte Numbers.DecimalString.
Import ListNotations.

#[local] Set Warnings "-register-all".

Local Open Scope string_scope.
Local Open Scope list_scope.
Local Open Scope Z_scope.

(* ===================================================================== *)
(** ** Go-level notions shared by the three packages                      *)
(* ===================================================================== *)

Module Go.

(** [[]byte]: nil or a (possibly empty) sequence. *)
Definition bytes := option (list byte).

Definition len (b : bytes) : Z :=
  match b with
  | None => 0
  | Some l => Z.of_nat (length l)
  end.

Definition is_nil (b : bytes) : bool :=
  match b with None => true | Some _ => false end.

(** [b[i]]; the callers below only index inside the slice. *)
Definition index (b : bytes) (i : nat) : byte :=
  match b with
  | None => x00
  | Some l => nth i l x00
  end.

(** [b[lo:hi]] and [b[lo:]] on a slice long enough. *)
Definition slice (b : bytes) (lo hi : nat) : list byte :=
  match b with
  | None => []
  | Some l => firstn (hi - lo) (skipn lo l)
  end.

Definition slice_from (b : bytes) (lo : nat) : list byte :=
  match b with
  | None => []
  | Some l => skipn lo l
  end.

Definition byteZ (b : byte) : Z := Z.of_N (Byte.to_N b).

(** [binary.BigEndian.Uint32]:
    [uint32(b[3]) | uint32(b[2])<<8 | uint32(b[1])<<16 | uint32(b[0])<<24]. *)
Definition BigEndian_Uint32 (b : list byte) : Z :=
  Z.lor (Z.lor (Z.lor (byteZ (nth 3 b x00))
                      (Z.shiftl (byteZ (nth 2 b x00)) 8))
               (Z.shiftl (byteZ (nth 1 b x00)) 16))
        (Z.shiftl (byteZ (nth 0 b x00)) 24).

(** The dynamically typed value ([interface{}] / [any]) a codec produces. *)
Inductive any : Type :=
| ANil
| ABool (b : bool)
| AInt (z : Z)
| AString (s : string)
| ABytes (l : list byte)
| AList (l : list any)
| AMap (l : list (string * any)).

(** Go [error] values: the ones the modelled code builds with
    [fmt.Errorf], the registry's [RestError], and errors handed in by a
    collaborator ([Errorf] with the collaborator's text). *)
Inductive error : Type :=
| Errorf (msg : string)                     (* fmt.Errorf("msg") *)
| ErrorfS (msg : string) (arg : string)     (* fmt.Errorf("msg: %s", arg) *)
| ErrorfD (msg : string) (arg : Z)          (* fmt.Errorf("msg %d", arg) *)
| ErrorfDS (msg : string) (d : Z) (s : string) (* "msg %d - %s" *)
| Wrapf (msg : string) (inner : error)      (* fmt.Errorf("msg: %w", err) *)
| RestErr (ErrorCode : Z) (Message : string). (* *RestError *)

Definition string_of_Z (z : Z) : string :=
  NilZero.string_of_int (Z.to_int z).

(** [err.Error()] *)
Fixpoint Error (e : error) : string :=
  match e with
  | Errorf msg => msg
  | ErrorfS msg arg => (msg ++ ": " ++ arg)%string
  | ErrorfD msg arg => (msg ++ " " ++ string_of_Z arg)%string
  | ErrorfDS msg d s => (msg ++ " " ++ string_of_Z d ++ " - " ++ s)%string
  | Wrapf msg inner => (msg ++ ": " ++ Error inner)%string
  | RestErr code message =>
      ("schema registry request failed: " ++ string_of_Z code
         ++ " - " ++ message)%string
  end.

(** A Go [(T, error)] whose returns are [(nil, err)] or [(v, nil)]. *)
Inductive result (T : Type) : Type :=
| Ok (v : T)
| Err (e : error).
Arguments Ok {T} v.
Arguments Err {T} e.

Definition is_err {T} (r : result T) : bool :=
  match r with Ok _ => false | Err _ => true end.

(** State monad over a world [W]. *)
Definition M (W A : Type) : Type := W -> A * W.

Definition ret {W A} (a : A) : M W A := fun w => (a, w).

Definition bind {W A B} (m : M W A) (k : A -> M W B) : M W B :=
  fun w => let (a, w') := m w in k a w'.

End Go.

Import Go.

Notation "x <- m ;; k" := (bind m (fun x => k))
(at level 61, m at next level, right associativity).
Notation "' pat <- m ;; k" := (bind m (fun x => match x with pat => k end))
(at level 61, pat pattern, m at next level, right associativity).

(** [kgo.Record] of the franz-go client: the fields the package reads. *)
Module kgo.

Record Record : Type := mkRecord {
  Key : bytes;
  Value : bytes;
  Topic : string;
  Headers : list (string * bytes)
}.

End kgo.

(* ===================================================================== *)
(** ** Package serde: the data model                                      *)
(* ===================================================================== *)

Module Serde.

Definition PayloadEncoding := string.

(** Modelled from the spec: the encoding constants are declared elsewhere in
    the package; the specification names the labels "none" and "binary", and
    the Avro codec's label. *)
Definition PayloadEncodingNone : PayloadEncoding := "none".
Definition PayloadEncodingBinary : PayloadEncoding := "binary".
Definition payloadEncodingAvro : PayloadEncoding := "avro".

Inductive PayloadType : Type :=
| PayloadTypeKey
| PayloadTypeValue.

Record TroubleshootingReport : Type := mkTS {
  SerdeName : string;
  Message : string
}.

(** Modelled from the spec: the declaration of [RecordPayload] is elsewhere
    in the package; its fields are the ones the code and its tests
    assign and read (the tests read [SchemaID] and [Troubleshooting] as
    nil-able). *)
Record RecordPayload : Type := mkRP {
  OriginalPayload : bytes;
  IsPayloadNull : bool;
  PayloadSizeBytes : Z;
  ParsedPayload : any;
  NormalizedPayload : bytes;
  IsPayloadTooLarge : bool;
  Encoding : PayloadEncoding;
  SchemaID : option Z;
  Troubleshooting : option (list TroubleshootingReport)
}.

(** [RecordPayload{}], the zero value. *)
Definition zeroRP : RecordPayload :=
  {| OriginalPayload := None; IsPayloadNull := false; PayloadSizeBytes := 0;
     ParsedPayload := ANil; NormalizedPayload := None;
     IsPayloadTooLarge := false; Encoding := ""; SchemaID := None;
     Troubleshooting := None |}.

Definition payloadFromRecord (record : kgo.Record) (payloadType : PayloadType)
  : bytes :=
  match payloadType with
  | PayloadTypeValue => kgo.Value record
  | PayloadTypeKey => kgo.Key record
  end.

End Serde.

Import Serde.

(* ===================================================================== *)
(** ** avro.go: the Avro framed codec                                     *)
(* ===================================================================== *)

Module Avro.
Section WithRegistry.

(** The registry behind the schema service, and [avro.Schema]. *)
Variable W : Type.
Variable Schema : Type.

(** [*schema.Service], of which the codec uses one method. *)
Record SchemaService : Type := mkSchemaService {
  GetAvroSchemaByID : Z -> M W (result Schema)
}.

(** [avro.Unmarshal(schema, data, &obj)] of the hamba/avro library. *)
Variable avro_Unmarshal : Schema -> list byte -> result any.

(** The codec's world: the registry and the ghost log of the schema
    identifiers looked up so far, oldest first. *)
Record St : Type := mkSt {
  registry : W;
  lookups : list Z
}.

(** The call [d.SchemaService.GetAvroSchemaByID(schemaID)], logged. *)
Definition callGetAvroSchemaByID (svc : SchemaService) (schemaID : Z)
  : M St (result Schema) :=
  fun st =>
    let (r, w') := GetAvroSchemaByID svc schemaID (registry st) in
    (r, {| registry := w'; lookups := lookups st ++ [schemaID] |}).

Record AvroSerde : Type := mkAvroSerde {
  SchemaService_ : option SchemaService   (* nil-able pointer *)
}.

Definition Name (_ : AvroSerde) : PayloadEncoding := payloadEncodingAvro.

Definition DeserializePayload (d : AvroSerde) (record : kgo.Record)
    (payloadType : PayloadType) : M St (RecordPayload * option error) :=
  match SchemaService_ d with
  | None => ret (zeroRP, Some (Errorf "no schema registry configured"))
  | Some svc =>
    let payload := payloadFromRecord record payloadType in
    if len payload <=? 5 then
      ret (zeroRP, Some (Errorf "payload length is < 5"))
    else if negb (Byte.eqb (index payload 0) x00) then
      ret (zeroRP, Some (Errorf "incorrect magic byte"))
    else
      let schemaID := BigEndian_Uint32 (slice payload 1 5) in
      r <- callGetAvroSchemaByID svc schemaID ;;
      match r with
      | Err err =>
          ret (zeroRP, Some (Wrapf "getting avro schema from registry" err))
      | Ok schema =>
          match avro_Unmarshal schema (slice_from payload 5) with
          | Err err => ret (zeroRP, Some (Wrapf "decoding avro" err))
          | Ok obj =>
              ret ({| OriginalPayload := None; IsPayloadNull := false;
                      PayloadSizeBytes := 0;
                      ParsedPayload := obj;
                      NormalizedPayload := None;
                      IsPayloadTooLarge := false;
                      Encoding := payloadEncodingAvro;
                      SchemaID := None;
                      Troubleshooting := None |}, None)
          end
      end
  end.

(** A frame the codec accepts: longer than five bytes, magic byte zero. *)
Definition wellFramed (payload : bytes) : Prop :=
  5 < len payload /\ index payload 0 = x00.

(** The identifier a frame carries in bytes 1 to 4. *)
Definition frameSchemaID (payload : bytes) : Z :=
  BigEndian_Uint32 (slice payload 1 5).

End WithRegistry.
End Avro.

Arguments Avro.mkSchemaService {W Schema} _.
Arguments Avro.GetAvroSchemaByID {W Schema} _ _ _.
Arguments Avro.mkAvroSerde {W Schema} _.
Arguments Avro.SchemaService_ {W Schema} _.
Arguments Avro.mkSt {W} _ _.
Arguments Avro.registry {W} _.
Arguments Avro.lookups {W} _.
Arguments Avro.DeserializePayload {W Schema} avro_Unmarshal d record payloadType _.

(* ===================================================================== *)
(** ** service.go: the dispatch engine                                    *)
(* ===================================================================== *)

Module Service.

(** Modelled from the spec: the declaration of [SerdeOpt] is elsewhere in the
    package; the engine builds [WithTopic(topic)] and passes the caller's
    other options through. *)
Inductive SerdeOpt : Type :=
| WithTopic (topic : string)
| CallerOpt (tag : string).

(** [DeserializationOptions], with the five fields service.go declares. *)
Record DeserializationOptions : Type := mkOpts {
  KeyEncoding : PayloadEncoding;
  ValueEncoding : PayloadEncoding;
  MaxPayloadSize : Z;
  Troubleshoot : bool;
  IncludeRawData : bool
}.

(** Modelled from the spec: [serde.Record], the result of
    [DeserializeRecord], and the input and output records of
    [SerializeRecord] below are declared elsewhere in the package; their
    fields are the ones the engine assigns and reads. *)
Record Record : Type := mkRecord {
  Key : option RecordPayload;
  Value : option RecordPayload;
  Headers : list (string * bytes)
}.

(** [RecordPayloadInput]: one side of a [SerializeInput]. *)
Record RecordPayloadInput : Type := mkInput {
  Payload : any;
  InEncoding : PayloadEncoding;     (* .Encoding *)
  Options : list SerdeOpt
}.

Record SerializeInput : Type := mkSerializeInput {
  InTopic : string;                 (* .Topic *)
  InKey : RecordPayloadInput;       (* .Key *)
  InValue : RecordPayloadInput      (* .Value *)
}.

(** [RecordPayloadSerializeResult]; its zero value has the empty label, a
    nil payload and a nil troubleshooting list. *)
Record RecordPayloadSerializeResult : Type := mkSerResult {
  SerEncoding : PayloadEncoding;                        (* .Encoding *)
  SerPayload : bytes;                                   (* .Payload *)
  SerTroubleshooting : option (list TroubleshootingReport) (* .Troubleshooting *)
}.

Record SerializeOutput : Type := mkSerializeOutput {
  OutKey : option RecordPayloadSerializeResult;         (* .Key *)
  OutValue : option RecordPayloadSerializeResult        (* .Value *)
}.

Definition defaultMaxPayloadSize : Z := 1000000.

(** The [Serde] interface: a codec type [C] with its three methods, acting
    on a world [W]. *)
Class Serde (W C : Type) : Type := mkSerde {
  Name : C -> PayloadEncoding;
  DeserializePayload :
    C -> kgo.Record -> PayloadType -> M W (option RecordPayload * option error);
  SerializeObject :
    C -> any -> PayloadType -> list SerdeOpt -> M W (bytes * option error)
}.

(** The twelve codec types [NewService] registers, each with the services
    it is built from. *)
Inductive Codec (SchemaSvc ProtoSvc MsgPackSvc : Type) : Type :=
| NoneSerde
| JSONSerde
| JSONSchemaSerde (SchemaSvc_ : SchemaSvc)
| XMLSerde
| AvroSerde (SchemaSvc_ : SchemaSvc)
| ProtobufSerde (ProtoSvc_ : ProtoSvc)
| ProtobufSchemaSerde (ProtoSvc_ : ProtoSvc)
| MsgPackSerde (MsgPackService_ : MsgPackSvc)
| SmileSerde
| UTF8Serde
| TextSerde
| UintSerde.

Arguments NoneSerde {SchemaSvc ProtoSvc MsgPackSvc}.
Arguments JSONSerde {SchemaSvc ProtoSvc MsgPackSvc}.
Arguments JSONSchemaSerde {SchemaSvc ProtoSvc MsgPackSvc} _.
Arguments XMLSerde {SchemaSvc ProtoSvc MsgPackSvc}.
Arguments AvroSerde {SchemaSvc ProtoSvc MsgPackSvc} _.
Arguments ProtobufSerde {SchemaSvc ProtoSvc MsgPackSvc} _.
Arguments ProtobufSchemaSerde {SchemaSvc ProtoSvc MsgPackSvc} _.
Arguments MsgPackSerde {SchemaSvc ProtoSvc MsgPackSvc} _.
Arguments SmileSerde {SchemaSvc ProtoSvc MsgPackSvc}.
Arguments UTF8Serde {SchemaSvc ProtoSvc MsgPackSvc}.
Arguments TextSerde {SchemaSvc ProtoSvc MsgPackSvc}.
Arguments UintSerde {SchemaSvc ProtoSvc MsgPackSvc}.

(** [Service]: the codec chain. *)
Record Service (C : Type) : Type := mkService {
  SerDes : list C
}.
Arguments mkService {C} _.
Arguments SerDes {C} _.

Definition NewService {SchemaSvc ProtoSvc MsgPackSvc : Type}
    (schemaService : SchemaSvc) (protoSvc : ProtoSvc) (msgPackSvc : MsgPackSvc)
  : Service (Codec SchemaSvc ProtoSvc MsgPackSvc) :=
  {| SerDes :=
       [ NoneSerde;
         JSONSerde;
         JSONSchemaSerde schemaService;
         XMLSerde;
         AvroSerde schemaService;
         ProtobufSerde protoSvc;
         ProtobufSchemaSerde protoSvc;
         MsgPackSerde msgPackSvc;
         SmileSerde;
         UTF8Serde;
         TextSerde;
         UintSerde ] |}.

(** The chain order as the specification lists it: "none/empty-check, JSON,
    JSON-with-schema, XML, Avro-with-schema, Protobuf-with-schema,
    Protobuf-without-schema, MessagePack, Smile, UTF-8 text, plain text,
    unsigned-integer", each label read as the codec type of that name
    (the "-with-schema" codecs are the [...SchemaSerde] types and the
    registry-backed Avro codec). *)
Definition specChainOrder {SchemaSvc ProtoSvc MsgPackSvc : Type}
    (schemaService : SchemaSvc) (protoSvc : ProtoSvc) (msgPackSvc : MsgPackSvc)
  : list (Codec SchemaSvc ProtoSvc MsgPackSvc) :=
  [ NoneSerde;
    JSONSerde;
    JSONSchemaSerde schemaService;
    XMLSerde;
    AvroSerde schemaService;
    ProtobufSchemaSerde protoSvc;
    ProtobufSerde protoSvc;
    MsgPackSerde msgPackSvc;
    SmileSerde;
    UTF8Serde;
    TextSerde;
    UintSerde ].

Section Engine.

Context {W C : Type} `{Serde W C}.

(** The engine's state: the codecs' world and the ghost log of the codec
    methods the engine has called, oldest first. *)
Inductive Call : Type :=
| CallDeserialize (serde : C) (payloadType : PayloadType)
| CallSerialize (serde : C) (payloadType : PayloadType).

Record EngineSt : Type := mkEngineSt {
  world : W;
  calls : list Call
}.

(** A collaborator's action on the world, run by the engine. *)
Definition liftW {A} (m : M W A) : M EngineSt A :=
  fun st =>
    let (a, w') := m (world st) in
    (a, {| world := w'; calls := calls st |}).

(** [serde.DeserializePayload(record, payloadType)], logged. *)
Definition callDeserializePayload (serde : C) (record : kgo.Record)
    (payloadType : PayloadType)
  : M EngineSt (option RecordPayload * option error) :=
  fun st =>
    let (r, w') := DeserializePayload serde record payloadType (world st) in
    (r, {| world := w';
           calls := calls st ++ [CallDeserialize serde payloadType] |}).

(** [serde.SerializeObject(payload, payloadType, options...)], logged. *)
Definition callSerializeObject (serde : C) (payload : any)
    (payloadType : PayloadType) (options : list SerdeOpt)
  : M EngineSt (bytes * option error) :=
  fun st =>
    let (r, w') := SerializeObject serde payload payloadType options (world st) in
    (r, {| world := w';
           calls := calls st ++ [CallSerialize serde payloadType] |}).

(** Two helpers of the package defined in other files. *)
Variable deserializeConsumerOffset :
  Service C -> kgo.Record -> M W (option Record * option error).
Variable recordHeaders : kgo.Record -> list (string * bytes).

(** The loop of [deserializePayload] over [s.SerDes]: [rp] and [err] are
    overwritten by every attempt, a nil [err] breaks, a failure appends its
    report and goes on. *)
Fixpoint trySerDes (serdes : list C) (record : kgo.Record)
    (payloadType : PayloadType)
    (rp : option RecordPayload) (err : option error)
    (troubleshooting : list TroubleshootingReport)
  : M EngineSt (option RecordPayload * option error
                * list TroubleshootingReport) :=
  match serdes with
  | [] => ret (rp, err, troubleshooting)
  | serde :: rest =>
      '(rp', err') <- callDeserializePayload serde record payloadType ;;
      match err' with
      | None => ret (rp', None, troubleshooting)
      | Some e =>
          trySerDes rest record payloadType rp' err'
            (troubleshooting
               ++ [{| SerdeName := Name serde; Message := Error e |}])
      end
  end.

(** [&RecordPayload{Encoding: PayloadEncodingBinary}] *)
Definition binaryRP : RecordPayload :=
  {| OriginalPayload := None; IsPayloadNull := false; PayloadSizeBytes := 0;
     ParsedPayload := ANil; NormalizedPayload := None;
     IsPayloadTooLarge := false; Encoding := PayloadEncodingBinary;
     SchemaID := None; Troubleshooting := None |}.

(** [rp == nil || err != nil || (rp != nil && rp.Encoding == "")] *)
Definition noSerdeFound (rp : option RecordPayload) (err : option error) : bool :=
  match rp with None => true | Some _ => false end
  || match err with Some _ => true | None => false end
  || match rp with Some r => String.eqb (Encoding r) "" | None => false end.

(** The assignments after the loop, in the order of the source. *)
Definition finishPayload (payload : bytes) (opts : DeserializationOptions)
    (rp : option RecordPayload) (err : option error)
    (troubleshooting : list TroubleshootingReport) : RecordPayload :=
  let addTS := Troubleshoot opts in
  let '(rp, addTS) :=
    if noSerdeFound rp err then (binaryRP, true)
    else (match rp with Some r => r | None => binaryRP end, addTS) in
  let rp :=
    {| OriginalPayload := OriginalPayload rp;
       IsPayloadNull := is_nil payload;
       PayloadSizeBytes := len payload;
       ParsedPayload := ParsedPayload rp;
       NormalizedPayload := NormalizedPayload rp;
       IsPayloadTooLarge := IsPayloadTooLarge rp;
       Encoding := Encoding rp;
       SchemaID := SchemaID rp;
       Troubleshooting := Troubleshooting rp |} in
  let rp :=
    if IncludeRawData opts then
      {| OriginalPayload := payload;
         IsPayloadNull := IsPayloadNull rp;
         PayloadSizeBytes := PayloadSizeBytes rp;
         ParsedPayload := ParsedPayload rp;
         NormalizedPayload := NormalizedPayload rp;
         IsPayloadTooLarge := IsPayloadTooLarge rp;
         Encoding := Encoding rp;
         SchemaID := SchemaID rp;
         Troubleshooting := Troubleshooting rp |}
    else rp in
  let rp :=
    if len payload >? MaxPayloadSize opts then
      {| OriginalPayload := OriginalPayload rp;
         IsPayloadNull := IsPayloadNull rp;
         PayloadSizeBytes := PayloadSizeBytes rp;
         ParsedPayload := ParsedPayload rp;
         NormalizedPayload := None;
         IsPayloadTooLarge := true;
         Encoding := Encoding rp;
         SchemaID := SchemaID rp;
         Troubleshooting := Troubleshooting rp |}
    else rp in
  if addTS then
    {| OriginalPayload := OriginalPayload rp;
       IsPayloadNull := IsPayloadNull rp;
       PayloadSizeBytes := PayloadSizeBytes rp;
       ParsedPayload := ParsedPayload rp;
       NormalizedPayload := NormalizedPayload rp;
       IsPayloadTooLarge := IsPayloadTooLarge rp;
       Encoding := Encoding rp;
       SchemaID := SchemaID rp;
       Troubleshooting := Some troubleshooting |}
  else rp.

Definition deserializePayload (s : Service C) (record : kgo.Record)
    (payloadType : PayloadType) (opts : DeserializationOptions)
  : M EngineSt RecordPayload :=
  let payload := payloadFromRecord record payloadType in
  let originalPayload := if IncludeRawData opts then payload else None in
  if len payload =? 0 then
    ret {| OriginalPayload := originalPayload;
           IsPayloadNull := is_nil payload;
           PayloadSizeBytes := 0;
           ParsedPayload := ANil; NormalizedPayload := None;
           IsPayloadTooLarge := false;
           Encoding := PayloadEncodingNone;
           SchemaID := None; Troubleshooting := None |}
  else
    '(rp, err, troubleshooting) <-
      trySerDes (SerDes s) record payloadType None None [] ;;
    ret (finishPayload payload opts rp err troubleshooting).

Definition DeserializeRecord (s : Service C) (record : kgo.Record)
    (opts : DeserializationOptions) : M EngineSt (option Record) :=
  let opts :=
    if MaxPayloadSize opts <=? 0 then
      {| KeyEncoding := KeyEncoding opts;
         ValueEncoding := ValueEncoding opts;
         MaxPayloadSize := defaultMaxPayloadSize;
         Troubleshoot := Troubleshoot opts;
         IncludeRawData := IncludeRawData opts |}
    else opts in
  let general : M EngineSt (option Record) :=
    key <- deserializePayload s record PayloadTypeKey opts ;;
    val <- deserializePayload s record PayloadTypeValue opts ;;
    let headers := recordHeaders record in
    ret (Some {| Key := Some key; Value := Some val; Headers := headers |}) in
  if String.eqb (kgo.Topic record) "__consumer_offsets" then
    '(rec, err) <- liftW (deserializeConsumerOffset s record) ;;
    match err with
    | None => ret rec
    | Some _ => general
    end
  else general.

(** One of the two loops of [SerializeRecord] over [s.SerDes]: codecs of
    another name are skipped; a success stores label and bytes and breaks;
    a failure records the error and its report and goes on. *)
Fixpoint serializeLoop (serdes : list C) (input : RecordPayloadInput)
    (payloadType : PayloadType)
    (found : bool) (err : option error)
    (serResult : RecordPayloadSerializeResult)
    (ts : list TroubleshootingReport)
  : M EngineSt (bool * option error * RecordPayloadSerializeResult
                * list TroubleshootingReport) :=
  match serdes with
  | [] => ret (found, err, serResult, ts)
  | serde :: rest =>
      if negb (String.eqb (InEncoding input) (Name serde)) then
        serializeLoop rest input payloadType found err serResult ts
      else
        '(bytes, serErr) <-
          callSerializeObject serde (Payload input) payloadType (Options input) ;;
        match serErr with
        | None =>
            ret (true, None,
                 {| SerEncoding := Name serde; SerPayload := bytes;
                    SerTroubleshooting := SerTroubleshooting serResult |},
                 ts)
        | Some e =>
            serializeLoop rest input payloadType true (Some e) serResult
              (ts ++ [{| SerdeName := Name serde; Message := Error e |}])
        end
  end.

(** [var r RecordPayloadSerializeResult] *)
Definition zeroSerResult : RecordPayloadSerializeResult :=
  {| SerEncoding := ""; SerPayload := None; SerTroubleshooting := None |}.

(** [input.X.Options = append(input.X.Options, WithTopic(input.Topic))]
    when the topic is not empty. *)
Definition withTopicOption (topic : string) (input : RecordPayloadInput)
  : RecordPayloadInput :=
  if negb (String.eqb topic "") then
    {| Payload := Payload input; InEncoding := InEncoding input;
       Options := Options input ++ [WithTopic topic] |}
  else input.

Definition SerializeRecord (s : Service C) (input : SerializeInput)
  : M EngineSt (SerializeOutput * option error) :=
  (* key *)
  let key := withTopicOption (InTopic input) (InKey input) in
  '(found, err, keySerResult, keyTS) <-
    serializeLoop (SerDes s) key PayloadTypeKey false None zeroSerResult [] ;;
  let keySerResult :=
    {| SerEncoding := SerEncoding keySerResult;
       SerPayload := SerPayload keySerResult;
       SerTroubleshooting := Some keyTS |} in
  let err :=
    if negb found then
      Some (ErrorfS "invalid encoding for key" (InEncoding key))
    else err in
  match err with
  | Some e => ret ({| OutKey := Some keySerResult; OutValue := None |}, Some e)
  | None =>
    (* value *)
    let value := withTopicOption (InTopic input) (InValue input) in
    '(found, err, valueSerResult, valueTS) <-
      serializeLoop (SerDes s) value PayloadTypeValue false None zeroSerResult [] ;;
    let valueSerResult :=
      {| SerEncoding := SerEncoding valueSerResult;
         SerPayload := SerPayload valueSerResult;
         SerTroubleshooting := Some valueTS |} in
    let err :=
      if negb found then
        Some (ErrorfS "invalid encoding for value" (InEncoding value))
      else err in
    ret ({| OutKey := Some keySerResult; OutValue := Some valueSerResult |}, err)
  end.

(** *** Vocabulary for the properties. *)

(** Every codec of [serdes], tried in order from world [w], fails; the
    world ends as [w'] and [reports] are the reports of the failures, in
    attempt order. *)
Inductive allFail (record : kgo.Record) (payloadType : PayloadType)
  : list C -> W -> W -> list TroubleshootingReport -> Prop :=
| allFail_nil w : allFail record payloadType [] w w []
| allFail_cons serde rest w rp e w1 w' reports :
    DeserializePayload serde record payloadType w = ((rp, Some e), w1) ->
    allFail record payloadType rest w1 w' reports ->
    allFail record payloadType (serde :: rest) w w'
      ({| SerdeName := Name serde; Message := Error e |} :: reports).

(** [serde] is the first codec of the chain whose attempt succeeds: the
    codecs [pre] before it fail in turn, then it returns [rp] with a nil
    error. *)
Definition firstSuccess (record : kgo.Record) (payloadType : PayloadType)
    (serdes : list C) (w : W)
    (pre : list C) (serde : C) (post : list C)
    (reports : list TroubleshootingReport) (rp : option RecordPayload)
    (w2 : W) : Prop :=
  serdes = pre ++ serde :: post /\
  exists w1,
    allFail record payloadType pre w w1 reports /\
    DeserializePayload serde record payloadType w1 = ((rp, None), w2).

Definition isValueCall (c : Call) : bool :=
  match c with
  | CallSerialize _ PayloadTypeValue => true
  | CallDeserialize _ PayloadTypeValue => true
  | _ => false
  end.

(** The maximum size in force: the caller's, or the default when the
    caller's is zero or negative. *)
Definition configuredMaxPayloadSize (opts : DeserializationOptions) : Z :=
  if MaxPayloadSize opts <=? 0 then defaultMaxPayloadSize
  else MaxPayloadSize opts.

(** The general path of [DeserializeRecord] is taken: the topic is not the
    consumer-offsets one, or its decoder returns an error. *)
Definition generalPath (s : Service C) (record : kgo.Record) (w : W) : Prop :=
  kgo.Topic record <> "__consumer_offsets" \/
  exists rec e,
    kgo.Topic record = "__consumer_offsets" /\
    fst (deserializeConsumerOffset s record w) = (rec, Some e).

(** The key side of [SerializeRecord] seen on its own: the outcome of its
    loop, and the error the key side ends with (the invalid-encoding error
    when no codec has the requested name, else the loop's error). *)
Definition keyOutcome (s : Service C) (input : SerializeInput) (st : EngineSt) :=
  serializeLoop (SerDes s) (withTopicOption (InTopic input) (InKey input))
    PayloadTypeKey false None zeroSerResult [] st.

Definition keySideError (s : Service C) (input : SerializeInput) (st : EngineSt)
  : option error :=
  let '(found, err, _, _) := fst (keyOutcome s input st) in
  if negb found then
    Some (ErrorfS "invalid encoding for key" (InEncoding (InKey input)))
  else err.

(** The same for the value side, run from the state [st1] the key side
    left. *)
Definition valueOutcome (s : Service C) (input : SerializeInput) (st1 : EngineSt) :=
  serializeLoop (SerDes s) (withTopicOption (InTopic input) (InValue input))
    PayloadTypeValue false None zeroSerResult [] st1.

Definition valueSideError (s : Service C) (input : SerializeInput) (st1 : EngineSt)
  : option error :=
  let '(found, err, _, _) := fst (valueOutcome s input st1) in
  if negb found then
    Some (ErrorfS "invalid encoding for value" (InEncoding (InValue input)))
  else err.

End Engine.
End Service.

(* ===================================================================== *)
(** ** schema/client.go: the registry REST client                         *)
(* ===================================================================== *)

Module Schema.

(** *** The response types, one module per Go struct. *)

Module Reference.
Record t : Type := mk { Name : string; Subject : string; Version : Z }.
End Reference.

Module SchemaResponse.
Record t : Type := mk { Schema : string; References : list Reference.t }.
End SchemaResponse.

Module SchemaVersionedResponse.
Record t : Type := mk {
  Subject : string;
  SchemaID : Z;
  Version : Z;
  Schema : string;
  Type_ : string;                      (* .Type, json "schemaType" *)
  References : list Reference.t
}.
End SchemaVersionedResponse.

Module SubjectsResponse.
Record t : Type := mk { Subjects : list string }.
End SubjectsResponse.

Module SubjectVersionsResponse.
Record t : Type := mk { Versions : list Z }.
End SubjectVersionsResponse.

Module ModeResponse.
Record t : Type := mk { Mode : string }.
End ModeResponse.

Module ConfigResponse.
Record t : Type := mk { Compatibility : string }.
End ConfigResponse.

Module DeleteSubjectResponse.
Record t : Type := mk { Versions : list Z }.
End DeleteSubjectResponse.

Module DeleteSubjectVersionResponse.
Record t : Type := mk { Version : Z }.
End DeleteSubjectVersionResponse.

Module SchemaReference.
Record t : Type := mk { Name : string; Subject : string; Version : Z }.
End SchemaReference.

Module Schema.
Record t : Type := mk {
  Schema : string;
  Type_ : string;
  References : list SchemaReference.t
}.
End Schema.

Module CreateSchemaResponse.
Record t : Type := mk { ID : Z }.
End CreateSchemaResponse.

(** Modelled from the spec: [CodeSubjectNotFound], [TypeAvro] and
    [http.StatusNotFound] are declared in other files; the doc
    comment of [GetSubjectConfig] shows the registry's code 40401, the
    specification names the type tag "AVRO", and not-found is HTTP 404. *)
Definition CodeSubjectNotFound : Z := 40401.
Definition TypeAvro_String : string := "AVRO".
Definition http_StatusNotFound : Z := 404.

(** *** The transport (resty).

    What a request hands back when it got a response: the status code, the
    error object the client parsed the body into ([res.Error()] asserted to
    [*RestError]: [None] when the assertion fails), the result object
    ([res.Result()] asserted to the type given to [SetResult]; for a
    [SetResult(&v)] the value of [v] after the request), and the raw body. *)
Record Response (T : Type) : Type := mkResponse {
  StatusCode : Z;
  ErrorObj : option (Z * string);        (* ErrorCode, Message *)
  ResultObj : option T;
  Body : string
}.
Arguments mkResponse {T} _ _ _ _.
Arguments StatusCode {T} _.
Arguments ErrorObj {T} _.
Arguments ResultObj {T} _.
Arguments Body {T} _.

(** resty: [IsError] is [StatusCode() > 399]. *)
Definition IsError {T} (res : Response T) : bool := StatusCode res >? 399.

(** The value a [SetResult(&v)] target holds after the request: what was
    decoded, or the zero value it was declared with. *)
Definition target {T} (zero : T) (res : Response T) : T :=
  match ResultObj res with Some v => v | None => zero end.

(** [*Client]: the registry as the requests of the client see it; a
    transport failure ([err != nil] from [req.Get]) is [Err]. *)
Record Client : Type := mkClient {
  GET_schemas_ids : Z -> result (Response SchemaResponse.t);
  GET_subjects_subject_versions_version :
    string -> string -> bool -> result (Response SchemaVersionedResponse.t);
  GET_subjects : bool -> result (Response (list string));
  GET_subjects_subject_versions :
    string -> bool -> result (Response (list Z));
  GET_mode : result (Response ModeResponse.t);
  GET_config : result (Response ConfigResponse.t);
  GET_config_subject : string -> result (Response ConfigResponse.t);
  DELETE_subjects_subject : string -> bool -> result (Response (list Z));
  DELETE_subjects_subject_versions_version :
    string -> string -> bool -> result (Response Z);
  GET_schemas_types : result (Response (list string));
  GET_schemas : bool -> result (Response (list SchemaVersionedResponse.t));
  POST_subjects_subject_versions :
    string -> Schema.t -> result (Response CreateSchemaResponse.t);
  GET_subjects_unparsed : result (Response unit)
}.

(** The block every operation but [GetSubjects] runs on an error status:
    the structured registry error when the body parsed as one, the status
    error otherwise. *)
Definition statusError {T} (what : string) (res : Response T) : error :=
  match ErrorObj res with
  | None => ErrorfD (what ++ ": Status code")%string (StatusCode res)
  | Some (code, message) => RestErr code message
  end.

Definition GetSchemaByID (c : Client) (id : Z) : result SchemaResponse.t :=
  match GET_schemas_ids c id with
  | Err err => Err (Wrapf "get schema by id request failed" err)
  | Ok res =>
      if IsError res then Err (statusError "get schema by id request failed" res)
      else
        match ResultObj res with
        | None => Err (Errorf "failed to parse schema response")
        | Some parsed => Ok parsed
        end
  end.

Definition GetSchemaBySubject (c : Client) (subject version : string)
    (showSoftDeleted : bool) : result SchemaVersionedResponse.t :=
  match GET_subjects_subject_versions_version c subject version showSoftDeleted with
  | Err err => Err (Wrapf "get schema by subject request failed" err)
  | Ok res =>
      if IsError res then
        Err (statusError "get schema by subject request failed" res)
      else
        match ResultObj res with
        | None => Err (Errorf "failed to parse schema by subject response")
        | Some parsed =>
            if String.eqb (SchemaVersionedResponse.Type_ parsed) "" then
              Ok {| SchemaVersionedResponse.Subject :=
                      SchemaVersionedResponse.Subject parsed;
                    SchemaVersionedResponse.SchemaID :=
                      SchemaVersionedResponse.SchemaID parsed;
                    SchemaVersionedResponse.Version :=
                      SchemaVersionedResponse.Version parsed;
                    SchemaVersionedResponse.Schema :=
                      SchemaVersionedResponse.Schema parsed;
                    SchemaVersionedResponse.Type_ := TypeAvro_String;
                    SchemaVersionedResponse.References :=
                      SchemaVersionedResponse.References parsed |}
            else Ok parsed
        end
  end.

(** [GetSubjects] has no [res.IsError()] block: after a response of any
    status it goes on to the result object. *)
Definition GetSubjects (c : Client) (showSoftDeleted : bool)
  : result SubjectsResponse.t :=
  match GET_subjects c showSoftDeleted with
  | Err err => Err (Wrapf "get subjects request failed" err)
  | Ok res =>
      match ResultObj res with
      | None => Err (Errorf "failed to parse subjects response")
      | Some parsed => Ok {| SubjectsResponse.Subjects := parsed |}
      end
  end.

Definition GetSubjectVersions (c : Client) (subject : string)
    (showSoftDeleted : bool) : result SubjectVersionsResponse.t :=
  match GET_subjects_subject_versions c subject showSoftDeleted with
  | Err err => Err (Wrapf "get subject versions request failed" err)
  | Ok res =>
      if IsError res then
        Err (statusError "get subject versions request failed" res)
      else
        match ResultObj res with
        | None => Err (Errorf "failed to parse subject versions response")
        | Some parsed => Ok {| SubjectVersionsResponse.Versions := parsed |}
        end
  end.

Definition GetMode (c : Client) : result ModeResponse.t :=
  match GET_mode c with
  | Err err => Err (Wrapf "get mode request failed" err)
  | Ok res =>
      if IsError res then Err (statusError "get mode request failed" res)
      else
        match ResultObj res with
        | None => Err (Errorf "failed to parse mode response")
        | Some parsed => Ok parsed
        end
  end.

Definition GetConfig (c : Client) : result ConfigResponse.t :=
  match GET_config c with
  | Err err => Err (Wrapf "get config failed" err)
  | Ok res =>
      if IsError res then Err (statusError "get config failed" res)
      else
        match ResultObj res with
        | None => Err (Errorf "failed to parse config response")
        | Some parsed => Ok parsed
        end
  end.

Definition GetSubjectConfig (c : Client) (subject : string)
  : result ConfigResponse.t :=
  match GET_config_subject c subject with
  | Err err => Err (Wrapf "get config for subject failed" err)
  | Ok res =>
      if IsError res then
        match ErrorObj res with
        | None =>
            Err (ErrorfD "get config for subject failed: Status code"
                   (StatusCode res))
        | Some (code, message) =>
            if code =? CodeSubjectNotFound then
              Ok {| ConfigResponse.Compatibility := "DEFAULT" |}
            else Err (RestErr code message)
        end
      else
        match ResultObj res with
        | None => Err (Errorf "failed to parse config for subject response")
        | Some parsed => Ok parsed
        end
  end.

Definition DeleteSubject (c : Client) (subject : string)
    (deletePermanently : bool) : result DeleteSubjectResponse.t :=
  match DELETE_subjects_subject c subject deletePermanently with
  | Err err => Err (Wrapf "delete subject failed" err)
  | Ok res =>
      if IsError res then Err (statusError "delete subject failed" res)
      else Ok {| DeleteSubjectResponse.Versions := target [] res |}
  end.

Definition DeleteSubjectVersion (c : Client) (subject version : string)
    (deletePermanently : bool) : result DeleteSubjectVersionResponse.t :=
  match DELETE_subjects_subject_versions_version c subject version
          deletePermanently with
  | Err err => Err (Wrapf "delete subject version failed" err)
  | Ok res =>
      if IsError res then Err (statusError "delete subject version failed" res)
      else Ok {| DeleteSubjectVersionResponse.Version := target 0 res |}
  end.

Definition GetSchemaTypes (c : Client) : result (list string) :=
  match GET_schemas_types c with
  | Err err => Err (Wrapf "get schema types failed" err)
  | Ok res =>
      if IsError res then Err (statusError "get schema types failed" res)
      else Ok (target [] res)
  end.

Definition CreateSchema (c : Client) (subjectName : string) (schema : Schema.t)
  : result CreateSchemaResponse.t :=
  match POST_subjects_subject_versions c subjectName schema with
  | Err err => Err (Wrapf "create schema failed" err)
  | Ok res =>
      if IsError res then Err (statusError "create schema failed" res)
      else Ok (target {| CreateSchemaResponse.ID := 0 |} res)
  end.

Definition CheckConnectivity (c : Client) : option error :=
  match GET_subjects_unparsed c with
  | Err err => Some err
  | Ok res =>
      if IsError res then
        Some (ErrorfDS "response is an error. Status:" (StatusCode res) (Body res))
      else None
  end.

(** *** The bulk listing and its fallback. *)

(** What one goroutine of [GetSchemasIndividually] sends on the channel:
    the [(r, err)] of its [GetSchemaBySubject]. *)
Definition chRes : Type := result SchemaVersionedResponse.t.

(** The goroutines run concurrently, so the channel delivers their results
    in an order the code does not control: a schedule is any rearrangement
    of the results sent. *)
Record Schedule : Type := mkSchedule {
  arrival : list chRes -> list chRes;
  arrival_perm : forall sent, Permutation (arrival sent) sent
}.

(** The receiving loop: [cap(ch)] receptions, the first error returns. *)
Fixpoint receiveAll (arrived : list chRes)
    (schemas : list SchemaVersionedResponse.t)
  : result (list SchemaVersionedResponse.t) :=
  match arrived with
  | [] => Ok schemas
  | res :: rest =>
      match res with
      | Err err => Err (Wrapf "failed to fetch at least one schema" err)
      | Ok schemaRes => receiveAll rest (schemas ++ [schemaRes])
      end
  end.

Definition GetSchemasIndividually (c : Client) (sched : Schedule)
    (showSoftDeleted : bool) : result (list SchemaVersionedResponse.t) :=
  match GetSubjects c showSoftDeleted with
  | Err err => Err (Wrapf "failed to get subjects to fetch schemas for" err)
  | Ok subjectsRes =>
      let sent :=
        map (fun s => GetSchemaBySubject c s "latest" showSoftDeleted)
            (SubjectsResponse.Subjects subjectsRes) in
      receiveAll (arrival sched sent) []
  end.

Definition GetSchemas (c : Client) (sched : Schedule) (showSoftDeleted : bool)
  : result (list SchemaVersionedResponse.t) :=
  match GET_schemas c showSoftDeleted with
  | Err err => Err (Wrapf "get schemas failed" err)
  | Ok res =>
      if StatusCode res =? http_StatusNotFound then
        GetSchemasIndividually c sched showSoftDeleted
      else if IsError res then Err (statusError "get schemas failed" res)
      else Ok (target [] res)
  end.

(** *** Vocabulary for the properties. *)

(** The operations of the client, with their arguments. *)
Inductive Operation : Type :=
| OpGetSchemaByID (id : Z)
| OpGetSchemaBySubject (subject version : string) (showSoftDeleted : bool)
| OpGetSubjects (showSoftDeleted : bool)
| OpGetSubjectVersions (subject : string) (showSoftDeleted : bool)
| OpGetMode
| OpGetConfig
| OpGetSubjectConfig (subject : string)
| OpDeleteSubject (subject : string) (deletePermanently : bool)
| OpDeleteSubjectVersion (subject version : string) (deletePermanently : bool)
| OpGetSchemaTypes
| OpGetSchemas (showSoftDeleted : bool)
| OpCreateSchema (subjectName : string) (schema : Schema.t)
| OpCheckConnectivity.

Definition errorOf {T} (r : result T) : option error :=
  match r with Ok _ => None | Err e => Some e end.

(** The error an operation returns, [None] for nil. *)
Definition returnedError (c : Client) (sched : Schedule) (op : Operation)
  : option error :=
  match op with
  | OpGetSchemaByID id => errorOf (GetSchemaByID c id)
  | OpGetSchemaBySubject subject version showSoftDeleted =>
      errorOf (GetSchemaBySubject c subject version showSoftDeleted)
  | OpGetSubjects showSoftDeleted => errorOf (GetSubjects c showSoftDeleted)
  | OpGetSubjectVersions subject showSoftDeleted =>
      errorOf (GetSubjectVersions c subject showSoftDeleted)
  | OpGetMode => errorOf (GetMode c)
  | OpGetConfig => errorOf (GetConfig c)
  | OpGetSubjectConfig subject => errorOf (GetSubjectConfig c subject)
  | OpDeleteSubject subject deletePermanently =>
      errorOf (DeleteSubject c subject deletePermanently)
  | OpDeleteSubjectVersion subject version deletePermanently =>
      errorOf (DeleteSubjectVersion c subject version deletePermanently)
  | OpGetSchemaTypes => errorOf (GetSchemaTypes c)
  | OpGetSchemas showSoftDeleted => errorOf (GetSchemas c sched showSoftDeleted)
  | OpCreateSchema subjectName schema => errorOf (CreateSchema c subjectName schema)
  | OpCheckConnectivity => CheckConnectivity c
  end.

(** What the registry answered to the request of an operation (its first
    request, for [GetSchemas]): the status code and the parsed error body,
    or [None] when the transport failed. *)
Definition answer {T} (r : result (Response T)) : option (Z * option (Z * string)) :=
  match r with
  | Ok res => Some (StatusCode res, ErrorObj res)
  | Err _ => None
  end.

Definition registryAnswer (c : Client) (op : Operation)
  : option (Z * option (Z * string)) :=
  match op with
  | OpGetSchemaByID id => answer (GET_schemas_ids c id)
  | OpGetSchemaBySubject subject version showSoftDeleted =>
      answer (GET_subjects_subject_versions_version c subject version
                showSoftDeleted)
  | OpGetSubjects showSoftDeleted => answer (GET_subjects c showSoftDeleted)
  | OpGetSubjectVersions subject showSoftDeleted =>
      answer (GET_subjects_subject_versions c subject showSoftDeleted)
  | OpGetMode => answer (GET_mode c)
  | OpGetConfig => answer (GET_config c)
  | OpGetSubjectConfig subject => answer (GET_config_subject c subject)
  | OpDeleteSubject subject deletePermanently =>
      answer (DELETE_subjects_subject c subject deletePermanently)
  | OpDeleteSubjectVersion subject version deletePermanently =>
      answer (DELETE_subjects_subject_versions_version c subject version
                deletePermanently)
  | OpGetSchemaTypes => answer (GET_schemas_types c)
  | OpGetSchemas showSoftDeleted => answer (GET_schemas c showSoftDeleted)
  | OpCreateSchema subjectName schema =>
      answer (POST_subjects_subject_versions c subjectName schema)
  | OpCheckConnectivity => answer (GET_subjects_unparsed c)
  end.


End Schema.

Arguments Service.Call {C}.
Arguments Service.EngineSt {W C}.
Arguments Service.mkEngineSt {W C} _ _.
Arguments Service.world {W C} _.
Arguments Service.calls {W C} _.

(* ===================================================================== *)
(** ** Concrete collaborators, for running the model                      *)
(* ===================================================================== *)

Module Fixtures.

Import Service.

(** *** A registry that knows schema 7, and a decoder for one-string bodies. *)

Definition registry7 : Avro.SchemaService unit string :=
  Avro.mkSchemaService
    (fun id w =>
       if id =? 7 then (Ok "string", w)
       else (Err (RestErr 40403 "Schema not found"), w)).

Definition unmarshalString (schema : string) (body : list byte) : result any :=
  match body with
  | [] => Err (Errorf "unexpected EOF")
  | _ :: text => Ok (AString (string_of_list_byte text))
  end.

(** [[0x00][id = 7, big endian][0x04 'h' 'i']] *)
Definition frame7 : bytes :=
  Some [x00; x00; x00; x00; x07; x04; x68; x69].

Definition frame7Record : kgo.Record :=
  {| kgo.Key := None; kgo.Value := frame7; kgo.Topic := "orders";
     kgo.Headers := [] |}.

(** A value that is not framed: plain text "hi!". *)
Definition textRecord : kgo.Record :=
  {| kgo.Key := Some [x6b]; kgo.Value := Some [x68; x69; x21];
     kgo.Topic := "orders"; kgo.Headers := [("h", Some [x01])] |}.

Definition avroSt0 : Avro.St unit := Avro.mkSt tt [].

(** *** Stub codecs for the engine: a codec is a name with a fixed
    behaviour; the world counts the method calls made. *)

Inductive Stub : Type :=
| Failing (name : string) (message : string)
| Succeeding (name : string) (label : PayloadEncoding).

Definition stubName (c : Stub) : PayloadEncoding :=
  match c with
  | Failing name _ => name
  | Succeeding name _ => name
  end.

Definition stubRP (label : PayloadEncoding) (payload : bytes) : RecordPayload :=
  {| OriginalPayload := None; IsPayloadNull := false; PayloadSizeBytes := 0;
     ParsedPayload := ABytes (slice_from payload 0);
     NormalizedPayload := payload;
     IsPayloadTooLarge := false; Encoding := label; SchemaID := None;
     Troubleshooting := None |}.

#[export] Instance StubSerde : Serde nat Stub :=
  {| Name := stubName;
     DeserializePayload c record payloadType :=
       fun n =>
         match c with
         | Failing _ message => ((None, Some (Errorf message)), S n)
         | Succeeding _ label =>
             ((Some (stubRP label (payloadFromRecord record payloadType)), None),
              S n)
         end;
     SerializeObject c payload payloadType options :=
       fun n =>
         match c with
         | Failing _ message => ((None, Some (Errorf message)), S n)
         | Succeeding _ _ => ((Some [x7b; x7d], None), S n)
         end |}.

Definition stubService : Service Stub :=
  {| SerDes := [ Failing "json" "first byte indicates this it not valid JSON";
                 Succeeding "text" "text";
                 Succeeding "uint" "uint" ] |}.

(** A chain on which nothing succeeds, and one whose winner has no label. *)
Definition failingService : Service Stub :=
  {| SerDes := [ Failing "json" "not json"; Failing "xml" "not xml" ] |}.

Definition unlabelledService : Service Stub :=
  {| SerDes := [ Failing "json" "not json"; Succeeding "odd" "" ] |}.

Definition noConsumerOffset (s : Service Stub) (record : kgo.Record)
  : M nat (option Record * option error) :=
  ret (None, Some (Errorf "not a consumer offset record")).

Definition engineSt0 : EngineSt (W := nat) (C := Stub) :=
  {| world := 0%nat; calls := [] |}.

Definition quietOpts : DeserializationOptions :=
  {| KeyEncoding := ""; ValueEncoding := ""; MaxPayloadSize := 0;
     Troubleshoot := false; IncludeRawData := false |}.

Definition tinyOpts : DeserializationOptions :=
  {| KeyEncoding := ""; ValueEncoding := ""; MaxPayloadSize := 2;
     Troubleshoot := false; IncludeRawData := false |}.

(** A key whose encoding no codec has, with a value the chain can encode. *)
Definition badKeyInput : SerializeInput :=
  {| InTopic := "orders";
     InKey := {| Payload := AString "k"; InEncoding := "nope"; Options := [] |};
     InValue := {| Payload := AString "v"; InEncoding := "text"; Options := [] |} |}.

(** Key and value both ask for an encoding no codec has. *)
Definition bothFailInput : SerializeInput :=
  {| InTopic := "orders";
     InKey := {| Payload := AString "k"; InEncoding := "nope"; Options := [] |};
     InValue := {| Payload := AString "v"; InEncoding := "nada"; Options := [] |} |}.

Definition goodInput : SerializeInput :=
  {| InTopic := "orders";
     InKey := {| Payload := AString "k"; InEncoding := "text"; Options := [] |};
     InValue := {| Payload := AString "v"; InEncoding := "json"; Options := [] |} |}.

(** *** Registries for the client. *)

Import Schema.

Definition notFound {T} : result (Response T) :=
  Ok (mkResponse 404 None None "").

Definition svr (subject : string) : SchemaVersionedResponse.t :=
  {| SchemaVersionedResponse.Subject := subject;
     SchemaVersionedResponse.SchemaID := 1;
     SchemaVersionedResponse.Version := 1;
     SchemaVersionedResponse.Schema := "{}";
     SchemaVersionedResponse.Type_ := "";
     SchemaVersionedResponse.References := [] |}.

(** An old registry: no bulk endpoint, subjects A, B and C, and the latest
    version of B cannot be fetched. *)
Definition oldRegistry : Client :=
  {| GET_schemas_ids := fun _ => notFound;
     GET_subjects_subject_versions_version :=
       fun subject version _ =>
         if String.eqb subject "B" then
           Ok (mkResponse 500 (Some (50001, "Error in the backend data store"))
                 None "")
         else Ok (mkResponse 200 None (Some (svr subject)) "");
     GET_subjects := fun _ => Ok (mkResponse 200 None (Some ["A"; "B"; "C"]) "");
     GET_subjects_subject_versions := fun _ _ => notFound;
     GET_mode := notFound;
     GET_config := notFound;
     GET_config_subject :=
       fun subject =>
         Ok (mkResponse 404 (Some (40401, "Subject not found")) None "");
     DELETE_subjects_subject := fun _ _ => notFound;
     DELETE_subjects_subject_versions_version := fun _ _ _ => notFound;
     GET_schemas_types := notFound;
     GET_schemas := fun _ => notFound;
     POST_subjects_subject_versions := fun _ _ => notFound;
     GET_subjects_unparsed := notFound |}.

(** A registry that answers every request with a 500 and a parsed error
    body; the result object of a request is then the empty one it was
    created with. *)
Definition down {T} (empty : option T) : result (Response T) :=
  Ok (mkResponse 500 (Some (50001, "Error in the backend data store")) empty "").

Definition brokenRegistry : Client :=
  {| GET_schemas_ids := fun _ => down None;
     GET_subjects_subject_versions_version := fun _ _ _ => down None;
     GET_subjects := fun _ => down (Some []);
     GET_subjects_subject_versions := fun _ _ => down (Some []);
     GET_mode := down None;
     GET_config := down None;
     GET_config_subject := fun _ => down None;
     DELETE_subjects_subject := fun _ _ => down None;
     DELETE_subjects_subject_versions_version := fun _ _ _ => down None;
     GET_schemas_types := down None;
     GET_schemas := fun _ => down None;
     POST_subjects_subject_versions := fun _ _ => down None;
     GET_subjects_unparsed := down None |}.

(** Results arrive in the order the goroutines were started, or in the
    opposite order. *)
Definition inOrder : Schedule :=
  {| arrival := fun sent => sent;
     arrival_perm := fun sent => Permutation_refl sent |}.

Definition reversed : Schedule :=
  {| arrival := fun sent => rev sent;
     arrival_perm := fun sent => Permutation_sym (Permutation_rev sent) |}.

End Fixtures.

(* ===================================================================== *)
(** ** The Avro codec as an entry of the chain                            *)
(* ===================================================================== *)

Module AvroInChain.
Section WithRegistry.

Variable W : Type.
Variable Schema : Type.
Variable avro_Unmarshal : Schema -> list byte -> result any.

(** The encoding side of the codec is in another file of the package. *)
Variable avroSerializeObject :
  Avro.AvroSerde W Schema -> any -> PayloadType -> list Service.SerdeOpt
  -> M (Avro.St W) (bytes * option error).

(** The file asserts that [AvroSerde] is a [Serde]: the codec's methods as
    the engine sees them, the codec's record reaching the engine behind a
    pointer. *)
#[export] Instance AvroIsSerde : Service.Serde (Avro.St W) (Avro.AvroSerde W Schema) :=
  {| Service.Name := Avro.Name W Schema;
     Service.DeserializePayload d record payloadType :=
       '(rp, err) <- Avro.DeserializePayload avro_Unmarshal d record payloadType ;;
       ret (Some rp, err);
     Service.SerializeObject := avroSerializeObject |}.

End WithRegistry.

(** A chain holds codecs of several types behind one interface: a codec of
    the chain is of one type or of the other, and a method call goes to the
    method of its type. *)
#[export] Instance SumSerde {W A B : Type}
    (SA : Service.Serde W A) (SB : Service.Serde W B) : Service.Serde W (A + B) :=
  {| Service.Name c :=
       match c with
       | inl a => Service.Name a
       | inr b => Service.Name b
       end;
     Service.DeserializePayload c :=
       match c with
       | inl a => Service.DeserializePayload a
       | inr b => Service.DeserializePayload b
       end;
     Service.SerializeObject c :=
       match c with
       | inl a => Service.SerializeObject a
       | inr b => Service.SerializeObject b
       end |}.

End AvroInChain.

(* ===================================================================== *)
(** ** More vocabulary for the registry client                            *)
(* ===================================================================== *)

Module SchemaMore.

Import Schema.

(** The error of the request itself ([err != nil] from the transport),
    [None] when a response arrived. *)
Definition failure {T} (r : result (Response T)) : option error :=
  match r with
  | Ok _ => None
  | Err err => Some err
  end.

Definition requestError (c : Client) (op : Operation) : option error :=
  match op with
  | OpGetSchemaByID id => failure (GET_schemas_ids c id)
  | OpGetSchemaBySubject subject version showSoftDeleted =>
      failure (GET_subjects_subject_versions_version c subject version
                 showSoftDeleted)
  | OpGetSubjects showSoftDeleted => failure (GET_subjects c showSoftDeleted)
  | OpGetSubjectVersions subject showSoftDeleted =>
      failure (GET_subjects_subject_versions c subject showSoftDeleted)
  | OpGetMode => failure (GET_mode c)
  | OpGetConfig => failure (GET_config c)
  | OpGetSubjectConfig subject => failure (GET_config_subject c subject)
  | OpDeleteSubject subject deletePermanently =>
      failure (DELETE_subjects_subject c subject deletePermanently)
  | OpDeleteSubjectVersion subject version deletePermanently =>
      failure (DELETE_subjects_subject_versions_version c subject version
                 deletePermanently)
  | OpGetSchemaTypes => failure (GET_schemas_types c)
  | OpGetSchemas showSoftDeleted => failure (GET_schemas c showSoftDeleted)
  | OpCreateSchema subjectName schema =>
      failure (POST_subjects_subject_versions c subjectName schema)
  | OpCheckConnectivity => failure (GET_subjects_unparsed c)
  end.

End SchemaMore.

(* ===================================================================== *)
(** ** The progress reporter of the message stream                        *)
(* ===================================================================== *)

Module Reporter.

(** An [int64] after an addition: two's-complement wrap-around. *)
Definition wrap64 (z : Z) : Z := (z + 2 ^ 63) mod 2 ^ 64 - 2 ^ 63.

(** The control messages the reporter puts on the stream, with the fields it
    sets. *)
Inductive ControlMessage : Type :=
| Progress (MessagesConsumed BytesConsumed : Z)
| Phase (name : string)
| Done (ElapsedMs : Z) (IsCancelled : bool) (MessagesConsumed BytesConsumed : Z)
| ErrorMessage (message : string).

(** [streamProgressReporter]: the two counters and, for the stream, the
    messages sent so far, oldest first. *)
Record streamProgressReporter : Type := mkReporter {
  FilterInterpreterCode : string;        (* p.request.FilterInterpreterCode *)
  messagesConsumed : Z;
  bytesConsumed : Z;
  stream : list ControlMessage
}.

Definition send (p : streamProgressReporter) (m : ControlMessage)
  : streamProgressReporter :=
  {| FilterInterpreterCode := FilterInterpreterCode p;
     messagesConsumed := messagesConsumed p;
     bytesConsumed := bytesConsumed p;
     stream := stream p ++ [m] |}.

Definition reportProgress (p : streamProgressReporter) : streamProgressReporter :=
  send p (Progress (messagesConsumed p) (bytesConsumed p)).

Definition OnPhase (p : streamProgressReporter) (name : string)
  : streamProgressReporter :=
  send p (Phase name).

Definition OnMessageConsumed (p : streamProgressReporter) (size : Z)
  : streamProgressReporter :=
  {| FilterInterpreterCode := FilterInterpreterCode p;
     messagesConsumed := wrap64 (messagesConsumed p + 1);
     bytesConsumed := wrap64 (bytesConsumed p + size);
     stream := stream p |}.

Definition OnComplete (p : streamProgressReporter) (elapsedMs : Z)
    (isCancelled : bool) : streamProgressReporter :=
  send p (Done elapsedMs isCancelled (messagesConsumed p) (bytesConsumed p)).

Definition OnError (p : streamProgressReporter) (message : string)
  : streamProgressReporter :=
  send p (ErrorMessage message).

(** The calls a consumer makes on the reporter, one after the other. *)
Inductive Call : Type :=
| CallReportProgress
| CallOnPhase (name : string)
| CallOnMessageConsumed (size : Z)
| CallOnError (message : string).

Definition step (p : streamProgressReporter) (c : Call) : streamProgressReporter :=
  match c with
  | CallReportProgress => reportProgress p
  | CallOnPhase name => OnPhase p name
  | CallOnMessageConsumed size => OnMessageConsumed p size
  | CallOnError message => OnError p message
  end.

Definition run (p : streamProgressReporter) (cs : list Call)
  : streamProgressReporter :=
  fold_left step cs p.

(** The sizes a sequence of calls reports as consumed. *)
Fixpoint consumedSizes (cs : list Call) : list Z :=
  match cs with
  | [] => []
  | CallOnMessageConsumed size :: rest => size :: consumedSizes rest
  | _ :: rest => consumedSizes rest
  end.

Definition sum (sizes : list Z) : Z := fold_right Z.add 0 sizes.

(** A reporter as it is created: counters at zero, nothing sent. *)
Definition newReporter (filterInterpreterCode : string) : streamProgressReporter :=
  {| FilterInterpreterCode := filterInterpreterCode;
     messagesConsumed := 0; bytesConsumed := 0; stream := [] |}.

End Reporter.

(* ===================================================================== *)
(** ** More concrete collaborators                                        *)
(* ===================================================================== *)

Module MoreFixtures.

Import Service Fixtures.

(** A record of the consumer-offsets topic and a decoder that knows it. *)
Definition offsetsRecord : kgo.Record :=
  {| kgo.Key := Some [x00; x01]; kgo.Value := Some [x00; x03];
     kgo.Topic := "__consumer_offsets"; kgo.Headers := [] |}.

Definition offsetsDecoded : Record :=
  {| Key := Some (stubRP "consumerOffsets" (Some [x00; x01]));
     Value := Some (stubRP "consumerOffsets" (Some [x00; x03]));
     Headers := [] |}.

Definition offsetDecoder (s : Service Stub) (record : kgo.Record)
  : M nat (option Record * option error) :=
  ret (Some offsetsDecoded, None).

(** Both sides encodable; and a value whose encoding no codec has. *)
Definition textInput : SerializeInput :=
  {| InTopic := "";
     InKey := {| Payload := AString "k"; InEncoding := "text"; Options := [] |};
     InValue := {| Payload := AString "v"; InEncoding := "uint"; Options := [] |} |}.

Definition badValueInput : SerializeInput :=
  {| InTopic := "orders";
     InKey := {| Payload := AString "k"; InEncoding := "text"; Options := [] |};
     InValue := {| Payload := AString "v"; InEncoding := "nada"; Options := [] |} |}.

Definition verboseOpts : DeserializationOptions :=
  {| KeyEncoding := ""; ValueEncoding := ""; MaxPayloadSize := 0;
     Troubleshoot := true; IncludeRawData := true |}.

(** A codec that takes every payload for text, on the world of the Avro
    codec, to stand behind it in a chain. *)
Inductive TextStub : Type := TextCodec.

#[export] Instance TextStubSerde : Serde (Avro.St unit) TextStub :=
  {| Name := fun _ => "text";
     DeserializePayload := fun _ record payloadType =>
       ret (Some (stubRP "text" (payloadFromRecord record payloadType)), None);
     SerializeObject := fun _ payload payloadType options =>
       ret (Some [x7b; x7d], None) |}.

Definition noAvroEncoder (d : Avro.AvroSerde unit string) (payload : any)
    (payloadType : PayloadType) (options : list SerdeOpt)
  : M (Avro.St unit) (bytes * option error) :=
  ret (None, Some (Errorf "not implemented")).

Definition avroCodec : Avro.AvroSerde unit string :=
  Avro.mkAvroSerde (Some registry7).

Definition avroEngineSt0
  : EngineSt (W := Avro.St unit) (C := Avro.AvroSerde unit string + TextStub) :=
  {| world := avroSt0; calls := [] |}.

Import Schema.

(** A registry that cannot be reached, and one that lacks the bulk endpoint
    and answers /subjects with an error status. *)
Definition refused {T} : result (Response T) :=
  Err (Errorf "dial tcp 127.0.0.1:8081: connect: connection refused").

Definition unreachableRegistry : Client :=
  {| GET_schemas_ids := fun _ => refused;
     GET_subjects_subject_versions_version := fun _ _ _ => refused;
     GET_subjects := fun _ => refused;
     GET_subjects_subject_versions := fun _ _ => refused;
     GET_mode := refused;
     GET_config := refused;
     GET_config_subject := fun _ => refused;
     DELETE_subjects_subject := fun _ _ => refused;
     DELETE_subjects_subject_versions_version := fun _ _ _ => refused;
     GET_schemas_types := refused;
     GET_schemas := fun _ => refused;
     POST_subjects_subject_versions := fun _ _ => refused;
     GET_subjects_unparsed := refused |}.

Definition halfBrokenRegistry : Client :=
  {| GET_schemas_ids := fun _ => notFound;
     GET_subjects_subject_versions_version := fun _ _ _ => notFound;
     GET_subjects := fun _ => down (Some []);
     GET_subjects_subject_versions := fun _ _ => notFound;
     GET_mode := notFound;
     GET_config := notFound;
     GET_config_subject := fun _ => notFound;
     DELETE_subjects_subject := fun _ _ => notFound;
     DELETE_subjects_subject_versions_version := fun _ _ _ => notFound;
     GET_schemas_types := notFound;
     GET_schemas := fun _ => notFound;
     POST_subjects_subject_versions := fun _ _ => notFound;
     GET_subjects_unparsed := notFound |}.

End MoreFixtures.

(* ===================================================================== *)
(** * Properties                                                          *)
(* ===================================================================== *)

(** ** The Avro framed codec *)

Module AvroFacts.
Section WithRegistry.

Import Avro.

Context {W Schema : Type}.
Variable avro_Unmarshal : Schema -> list byte -> result any.

Lemma slice_1_5_length (payload : bytes) :
  5 < len payload -> length (slice payload 1 5) = 4%nat.
Proof.
  destruct payload as [l|]; cbn [len slice]; [|lia].
  intros Hlen. rewrite length_firstn, length_skipn. lia.
Qed.

(** What the codec does on an accepted frame whose identifier resolves and
    whose body decodes: one lookup, of the frame's identifier, and a result
    made of the decoded value and the Avro label; [SchemaID] stays nil. *)
Lemma DeserializePayload_success (svc : SchemaService W Schema)
    record payloadType st schema w' obj :
  wellFramed (payloadFromRecord record payloadType) ->
  GetAvroSchemaByID svc (frameSchemaID (payloadFromRecord record payloadType))
    (registry st) = (Ok schema, w') ->
  avro_Unmarshal schema (slice_from (payloadFromRecord record payloadType) 5)
    = Ok obj ->
  DeserializePayload avro_Unmarshal (mkAvroSerde (Some svc)) record payloadType st
  = (({| OriginalPayload := None; IsPayloadNull := false;
         PayloadSizeBytes := 0; ParsedPayload := obj;
         NormalizedPayload := None; IsPayloadTooLarge := false;
         Encoding := payloadEncodingAvro; SchemaID := None;
         Troubleshooting := None |}, None),
     {| registry := w';
        lookups := lookups st
                   ++ [frameSchemaID (payloadFromRecord record payloadType)] |}).
Proof.
  intros [Hlen Hmagic] Hres Hdec.
  unfold DeserializePayload; cbn [SchemaService_].
  destruct (Z.leb_spec (len (payloadFromRecord record payloadType)) 5) as [Hle|_];
    [lia|].
  rewrite Hmagic.
  change (Byte.eqb x00 x00) with true. cbn [negb].
  unfold bind, callGetAvroSchemaByID, frameSchemaID in *.
  rewrite Hres, Hdec. reflexivity.
Qed.

(** C9: a payload of at most five bytes, and a payload whose first byte is
    not 0x00, is rejected with an error and the schema resolver is not
    called: the log of lookups and the registry are as they were. *)
Theorem DeserializePayload_rejects_before_lookup
    (d : AvroSerde W Schema) record payloadType st :
  len (payloadFromRecord record payloadType) <= 5 \/
  index (payloadFromRecord record payloadType) 0 <> x00 ->
  exists err,
    DeserializePayload avro_Unmarshal d record payloadType st
    = ((zeroRP, Some err), st).
Proof.
  intros Hbad. unfold DeserializePayload.
  destruct (SchemaService_ d) as [svc|]; [|eexists; reflexivity].
  destruct (Z.leb_spec (len (payloadFromRecord record payloadType)) 5) as [Hle|Hgt].
  - eexists; reflexivity.
  - destruct Hbad as [Hlen|Hmagic]; [lia|].
    destruct (Byte.eqb (index (payloadFromRecord record payloadType) 0) x00) eqn:E.
    + apply Byte.byte_dec_bl in E. contradiction.
    + eexists; reflexivity.
Qed.

End WithRegistry.

Import Fixtures.

(** The two rejections at work: the three-byte text value, and a frame-long
    value that starts with 0x01. *)
Lemma DeserializePayload_rejects_before_lookup_witness :
  (len (payloadFromRecord textRecord PayloadTypeValue) <= 5 \/
   index (payloadFromRecord textRecord PayloadTypeValue) 0 <> x00) /\
  exists err,
    Avro.DeserializePayload unmarshalString (Avro.mkAvroSerde (Some registry7))
      textRecord PayloadTypeValue avroSt0
    = ((zeroRP, Some err), avroSt0).
Proof.
  assert (H : len (payloadFromRecord textRecord PayloadTypeValue) <= 5 \/
              index (payloadFromRecord textRecord PayloadTypeValue) 0 <> x00)
    by (left; vm_compute; discriminate).
  split; [exact H|].
  exact (DeserializePayload_rejects_before_lookup unmarshalString
           (Avro.mkAvroSerde (Some registry7)) textRecord PayloadTypeValue
           avroSt0 H).
Defined.

(** C3: on the frame [[0x00][7][body]], whose identifier resolves and whose
    body decodes, the codec returns the decoded value and the Avro label,
    and looks up schema 7; the [SchemaID] of the result is nil, not 7. *)
Theorem DeserializePayload_frame7_has_no_schemaID :
  Avro.wellFramed frame7 /\
  Avro.frameSchemaID frame7 = 7 /\
  Avro.DeserializePayload unmarshalString (Avro.mkAvroSerde (Some registry7))
    frame7Record PayloadTypeValue avroSt0
  = (({| OriginalPayload := None; IsPayloadNull := false;
         PayloadSizeBytes := 0; ParsedPayload := AString "hi";
         NormalizedPayload := None; IsPayloadTooLarge := false;
         Encoding := payloadEncodingAvro; SchemaID := None;
         Troubleshooting := None |}, None),
     Avro.mkSt tt [7]).
Proof.
  split; [split; [reflexivity | reflexivity]|].
  split; [reflexivity|].
  reflexivity.
Qed.

(** A frame for schema 9, which the registry does not know: the lookup is
    made and its error is the codec's. *)
Example DeserializePayload_unknown_schema :
  Avro.DeserializePayload unmarshalString (Avro.mkAvroSerde (Some registry7))
    {| kgo.Key := Some [x00; x00; x00; x00; x09; x04; x68; x69];
       kgo.Value := None; kgo.Topic := "orders"; kgo.Headers := [] |}
    PayloadTypeKey avroSt0
  = ((zeroRP,
      Some (Wrapf "getting avro schema from registry"
              (RestErr 40403 "Schema not found"))),
     Avro.mkSt tt [9]).
Proof. reflexivity. Qed.

(** A frame-long key that starts with 0x01: rejected on the magic byte. *)
Example DeserializePayload_wrong_magic_byte :
  Avro.DeserializePayload unmarshalString (Avro.mkAvroSerde (Some registry7))
    {| kgo.Key := Some [x01; x00; x00; x00; x07; x04; x68; x69];
       kgo.Value := None; kgo.Topic := "orders"; kgo.Headers := [] |}
    PayloadTypeKey avroSt0
  = ((zeroRP, Some (Errorf "incorrect magic byte")), avroSt0).
Proof. reflexivity. Qed.

Example BigEndian_Uint32_258 : BigEndian_Uint32 [x00; x00; x01; x02] = 258.
Proof. reflexivity. Qed.

End AvroFacts.

(** ** The dispatch engine *)

Module ServiceFacts.

Import Service.

Section Engine.

Context {W C : Type} `{Serde W C}.

Variable deserializeConsumerOffset :
  Service C -> kgo.Record -> M W (option Record * option error).
Variable recordHeaders : kgo.Record -> list (string * bytes).

Let logOf (payloadType : PayloadType) (serdes : list C) : list Call :=
  map (fun c => CallDeserialize c payloadType) serdes.

(** *** The decoding loop *)

(** A chain either fails as a whole or has a first success. *)
Lemma chain_outcome record payloadType (serdes : list C) :
  forall w,
    (exists w' reports, allFail record payloadType serdes w w' reports) \/
    (exists pre serde post reports rp w2,
        firstSuccess record payloadType serdes w pre serde post reports rp w2).
Proof.
  induction serdes as [|serde rest IH]; intros w.
  - left. exists w, []. constructor.
  - destruct (DeserializePayload serde record payloadType w) as [[rp err] w1] eqn:E.
    destruct err as [e|].
    + destruct (IH w1) as [(w' & reports & Hall) | Hfirst].
      * left. do 2 eexists. econstructor; eassumption.
      * right.
        destruct Hfirst as (pre & c & post & reports & rp' & w2 & Heq & w1' & Hall & Hc).
        exists (serde :: pre), c, post,
          ({| SerdeName := Name serde; Message := Error e |} :: reports), rp', w2.
        split; [cbn; now rewrite Heq|].
        exists w1'. split; [econstructor; eassumption | exact Hc].
    + right. exists [], serde, rest, [], rp, w1.
      split; [reflexivity|]. exists w. split; [constructor | exact E].
Qed.

(** When every codec fails the loop tries them all, collects their reports
    and ends in a state the engine takes for "no codec found". *)
Lemma trySerDes_allFail record payloadType serdes w w' reports :
  allFail record payloadType serdes w w' reports ->
  forall rp err ts cs,
    noSerdeFound rp err = true ->
    exists rp' err',
      trySerDes serdes record payloadType rp err ts {| world := w; calls := cs |}
      = ((rp', err', ts ++ reports),
         {| world := w'; calls := cs ++ logOf payloadType serdes |})
      /\ noSerdeFound rp' err' = true.
Proof.
  induction 1 as [w | serde rest w rp0 e w1 w' reports Hc Hall IH];
    intros rp err ts cs Hnone.
  - exists rp, err. cbn. rewrite !app_nil_r. now split.
  - cbn [trySerDes]. unfold bind at 1, callDeserializePayload. cbn [world calls].
    rewrite Hc.
    destruct (IH rp0 (Some e)
                (ts ++ [{| SerdeName := Name serde; Message := Error e |}])
                (cs ++ [CallDeserialize serde payloadType]))
      as (rp' & err' & Heq & Hnone').
    { unfold noSerdeFound. destruct rp0; reflexivity. }
    exists rp', err'. rewrite Heq. split; [|exact Hnone'].
    unfold logOf. cbn [map]. now rewrite <- !app_assoc.
Qed.

(** When the codecs before [serde] fail and [serde] succeeds, the loop
    stops there: it has called the codecs up to [serde] and no other. *)
Lemma trySerDes_firstSuccess record payloadType pre :
  forall w w1 reports,
    allFail record payloadType pre w w1 reports ->
    forall serde post rp1 w2 rp err ts cs,
      DeserializePayload serde record payloadType w1 = ((rp1, None), w2) ->
      trySerDes (pre ++ serde :: post) record payloadType rp err ts
        {| world := w; calls := cs |}
      = ((rp1, None, ts ++ reports),
         {| world := w2;
            calls := cs ++ logOf payloadType (pre ++ [serde]) |}).
Proof.
  induction 1 as [w | c rest w rp0 e w1' w1 reports Hc Hall IH];
    intros serde post rp1 w2 rp err ts cs Hok.
  - cbn. unfold bind, callDeserializePayload. cbn [world calls].
    rewrite Hok. now rewrite app_nil_r.
  - cbn [app trySerDes]. unfold bind at 1, callDeserializePayload.
    cbn [world calls]. rewrite Hc.
    rewrite (IH serde post rp1 w2 rp0 (Some e) _ _ Hok).
    unfold logOf. cbn [map app]. now rewrite <- !app_assoc.
Qed.

(** What [finishPayload] makes of the loop's outcome. *)
Lemma finishPayload_binary payload opts rp err ts :
  noSerdeFound rp err = true ->
  Encoding (finishPayload payload opts rp err ts) = PayloadEncodingBinary /\
  Troubleshooting (finishPayload payload opts rp err ts) = Some ts.
Proof.
  intros Hnone. unfold finishPayload. rewrite Hnone.
  destruct (IncludeRawData opts), (len payload >? MaxPayloadSize opts);
    split; reflexivity.
Qed.

Lemma finishPayload_labelled payload opts p ts :
  Encoding p <> "" ->
  Encoding (finishPayload payload opts (Some p) None ts) = Encoding p /\
  Troubleshooting (finishPayload payload opts (Some p) None ts)
  = (if Troubleshoot opts then Some ts else Troubleshooting p).
Proof.
  intros Hlabel. unfold finishPayload, noSerdeFound.
  apply String.eqb_neq in Hlabel. rewrite Hlabel. cbn [orb].
  destruct (Troubleshoot opts), (IncludeRawData opts),
    (len payload >? MaxPayloadSize opts); split; reflexivity.
Qed.

Lemma finishPayload_size payload opts rp err ts :
  PayloadSizeBytes (finishPayload payload opts rp err ts) = len payload /\
  Encoding (finishPayload payload opts rp err ts) <> "".
Proof.
  unfold finishPayload.
  destruct (noSerdeFound rp err) eqn:Hnone.
  - destruct (IncludeRawData opts), (len payload >? MaxPayloadSize opts);
      split; try reflexivity; cbn; discriminate.
  - unfold noSerdeFound in Hnone.
    destruct rp as [p|]; [|discriminate].
    destruct err; [discriminate|]. cbn in Hnone.
    apply String.eqb_neq in Hnone.
    destruct (Troubleshoot opts), (IncludeRawData opts),
      (len payload >? MaxPayloadSize opts); split; try reflexivity; exact Hnone.
Qed.

Lemma finishPayload_tooLarge payload opts rp err ts :
  MaxPayloadSize opts < len payload ->
  IsPayloadTooLarge (finishPayload payload opts rp err ts) = true /\
  NormalizedPayload (finishPayload payload opts rp err ts) = None.
Proof.
  intros Hlarge. unfold finishPayload.
  assert (Hgt : (len payload >? MaxPayloadSize opts) = true)
    by (apply Z.gtb_lt; exact Hlarge).
  rewrite Hgt.
  destruct (noSerdeFound rp err), (Troubleshoot opts), (IncludeRawData opts);
    split; reflexivity.
Qed.

(** [deserializePayload] on a payload that is not empty: the loop, then
    [finishPayload]. *)
Lemma deserializePayload_nonempty s record payloadType opts st :
  len (payloadFromRecord record payloadType) <> 0 ->
  deserializePayload s record payloadType opts st
  = (let '((rp, err, ts), st') :=
       trySerDes (SerDes s) record payloadType None None [] st in
     (finishPayload (payloadFromRecord record payloadType) opts rp err ts, st')).
Proof.
  intros Hlen. unfold deserializePayload.
  apply Z.eqb_neq in Hlen. rewrite Hlen.
  unfold bind, ret.
  destruct (trySerDes (SerDes s) record payloadType None None [] st)
    as [[[rp err] ts] st'].
  reflexivity.
Qed.

(** C4: on a payload that is not empty [deserializePayload] returns a
    label that is not empty; when [serde] is the first codec of the chain
    whose attempt succeeds, the engine has called the codecs up to [serde],
    in chain order, and none after it, and the label returned is the one
    [serde] reported. *)
Theorem deserializePayload_label_of_first_success
    (s : Service C) record payloadType opts (st : EngineSt) :
  len (payloadFromRecord record payloadType) <> 0 ->
  Encoding (fst (deserializePayload s record payloadType opts st)) <> "" /\
  forall pre serde post reports rp w2,
    firstSuccess record payloadType (SerDes s) (world st)
      pre serde post reports rp w2 ->
    calls (snd (deserializePayload s record payloadType opts st))
    = calls st ++ map (fun c => CallDeserialize c payloadType) (pre ++ [serde]) /\
    world (snd (deserializePayload s record payloadType opts st)) = w2 /\
    forall p,
      rp = Some p -> Encoding p <> "" ->
      Encoding (fst (deserializePayload s record payloadType opts st))
      = Encoding p.
Proof.
  intros Hlen. rewrite (deserializePayload_nonempty s record payloadType opts st Hlen).
  split.
  - destruct (trySerDes (SerDes s) record payloadType None None [] st)
      as [[[rp err] ts] st'].
    apply finishPayload_size.
  - intros pre serde post reports rp w2 (Heq & w1 & Hall & Hok).
    destruct st as [w cs]. cbn [world calls] in *.
    rewrite Heq.
    rewrite (trySerDes_firstSuccess record payloadType pre w w1 reports Hall
               serde post rp w2 None None [] cs Hok).
    cbn [fst snd world calls].
    split; [reflexivity|]. split; [reflexivity|].
    intros p -> Hlabel.
    apply (finishPayload_labelled _ opts p _ Hlabel).
Qed.

(** C5: on a payload that is not empty, when no codec succeeds, and when
    the winning codec reports an empty label (or no result at all), the
    result is classified binary and carries the reports of the codecs that
    failed, whatever [Troubleshoot] says; when the winning codec reports a
    label, the engine attaches the reports only if [Troubleshoot] is set,
    and leaves the codec's own field otherwise. *)
Theorem deserializePayload_binary_forces_troubleshooting
    (s : Service C) record payloadType opts (st : EngineSt) :
  len (payloadFromRecord record payloadType) <> 0 ->
  (forall w' reports,
      allFail record payloadType (SerDes s) (world st) w' reports ->
      Encoding (fst (deserializePayload s record payloadType opts st))
      = PayloadEncodingBinary /\
      Troubleshooting (fst (deserializePayload s record payloadType opts st))
      = Some reports) /\
  (forall pre serde post reports rp w2,
      firstSuccess record payloadType (SerDes s) (world st)
        pre serde post reports rp w2 ->
      match rp with
      | Some p =>
          if String.eqb (Encoding p) "" then
            Encoding (fst (deserializePayload s record payloadType opts st))
            = PayloadEncodingBinary /\
            Troubleshooting (fst (deserializePayload s record payloadType opts st))
            = Some reports
          else
            Encoding (fst (deserializePayload s record payloadType opts st))
            = Encoding p /\
            Troubleshooting (fst (deserializePayload s record payloadType opts st))
            = (if Troubleshoot opts then Some reports else Troubleshooting p)
      | None =>
          Encoding (fst (deserializePayload s record payloadType opts st))
          = PayloadEncodingBinary /\
          Troubleshooting (fst (deserializePayload s record payloadType opts st))
          = Some reports
      end).
Proof.
  intros Hlen. rewrite (deserializePayload_nonempty s record payloadType opts st Hlen).
  destruct st as [w cs]. cbn [world].
  split.
  - intros w' reports Hall.
    destruct (trySerDes_allFail record payloadType (SerDes s) w w' reports Hall
                None None [] cs eq_refl) as (rp' & err' & Heq & Hnone).
    rewrite Heq. cbn [fst app].
    apply finishPayload_binary. exact Hnone.
  - intros pre serde post reports rp w2 (Heq & w1 & Hall & Hok).
    rewrite Heq.
    rewrite (trySerDes_firstSuccess record payloadType pre w w1 reports Hall
               serde post rp w2 None None [] cs Hok).
    cbn [fst app].
    destruct rp as [p|].
    + destruct (String.eqb (Encoding p) "") eqn:Hlabel.
      * apply finishPayload_binary. unfold noSerdeFound. now rewrite Hlabel.
      * apply finishPayload_labelled. now apply String.eqb_neq.
    + apply finishPayload_binary. reflexivity.
Qed.

(** Under a positive maximum a payload longer than it is flagged too large
    and loses its normalized form; label and size stay. *)
Lemma deserializePayload_tooLarge (s : Service C) record payloadType opts
    (st : EngineSt) :
  0 < MaxPayloadSize opts ->
  MaxPayloadSize opts < len (payloadFromRecord record payloadType) ->
  IsPayloadTooLarge (fst (deserializePayload s record payloadType opts st)) = true /\
  NormalizedPayload (fst (deserializePayload s record payloadType opts st)) = None /\
  Encoding (fst (deserializePayload s record payloadType opts st)) <> "" /\
  PayloadSizeBytes (fst (deserializePayload s record payloadType opts st))
  = len (payloadFromRecord record payloadType).
Proof.
  intros Hpos Hlarge.
  rewrite (deserializePayload_nonempty s record payloadType opts st) by lia.
  destruct (trySerDes (SerDes s) record payloadType None None [] st)
    as [[[rp err] ts] st'].
  cbn [fst].
  destruct (finishPayload_tooLarge _ opts rp err ts Hlarge) as [Hflag Hnorm].
  destruct (finishPayload_size (payloadFromRecord record payloadType) opts rp err ts)
    as [Hsize Hlabel].
  auto.
Qed.

(** The options [DeserializeRecord] works with have a positive maximum. *)
Lemma configuredMaxPayloadSize_pos opts : 0 < configuredMaxPayloadSize opts.
Proof.
  unfold configuredMaxPayloadSize, defaultMaxPayloadSize.
  destruct (Z.leb_spec (MaxPayloadSize opts) 0); lia.
Qed.

(** C8: on the general path of [DeserializeRecord], a key or value longer
    than the configured maximum (the caller's, or 1,000,000 when the
    caller's is zero or negative) comes back with the too-large flag set
    and no normalized payload, and with its label and size in place. *)
Theorem DeserializeRecord_too_large
    (s : Service C) record opts (st : EngineSt) :
  generalPath deserializeConsumerOffset s record (world st) ->
  exists key val,
    fst (DeserializeRecord deserializeConsumerOffset recordHeaders s record opts st)
    = Some {| Key := Some key; Value := Some val;
              Headers := recordHeaders record |} /\
    (configuredMaxPayloadSize opts < len (kgo.Key record) ->
       IsPayloadTooLarge key = true /\ NormalizedPayload key = None /\
       Encoding key <> "" /\ PayloadSizeBytes key = len (kgo.Key record)) /\
    (configuredMaxPayloadSize opts < len (kgo.Value record) ->
       IsPayloadTooLarge val = true /\ NormalizedPayload val = None /\
       Encoding val <> "" /\ PayloadSizeBytes val = len (kgo.Value record)).
Proof.
  intros Hgeneral.
  unfold DeserializeRecord.
  set (opts' := if MaxPayloadSize opts <=? 0 then _ else opts).
  assert (Hmax : MaxPayloadSize opts' = configuredMaxPayloadSize opts).
  { unfold opts', configuredMaxPayloadSize.
    destruct (MaxPayloadSize opts <=? 0); reflexivity. }
  pose proof (configuredMaxPayloadSize_pos opts) as Hpos.
  rewrite <- Hmax in *.
  assert (Hgen : forall st1 : EngineSt,
    exists key val,
      fst ((key <- deserializePayload s record PayloadTypeKey opts' ;;
            val <- deserializePayload s record PayloadTypeValue opts' ;;
            ret (Some {| Key := Some key; Value := Some val;
                         Headers := recordHeaders record |})) st1)
      = Some {| Key := Some key; Value := Some val;
                Headers := recordHeaders record |} /\
      (MaxPayloadSize opts' < len (kgo.Key record) ->
         IsPayloadTooLarge key = true /\ NormalizedPayload key = None /\
         Encoding key <> "" /\ PayloadSizeBytes key = len (kgo.Key record)) /\
      (MaxPayloadSize opts' < len (kgo.Value record) ->
         IsPayloadTooLarge val = true /\ NormalizedPayload val = None /\
         Encoding val <> "" /\ PayloadSizeBytes val = len (kgo.Value record))).
  { intros st1. unfold bind, ret.
    pose proof (deserializePayload_tooLarge s record PayloadTypeKey opts' st1 Hpos)
      as Hkey.
    destruct (deserializePayload s record PayloadTypeKey opts' st1) as [key st2].
    pose proof (deserializePayload_tooLarge s record PayloadTypeValue opts' st2 Hpos)
      as Hval.
    destruct (deserializePayload s record PayloadTypeValue opts' st2) as [val st3].
    exists key, val. cbn [fst] in *.
    split; [reflexivity|]. split; assumption. }
  destruct (String.eqb (kgo.Topic record) "__consumer_offsets") eqn:Htopic.
  - destruct Hgeneral as [Hne | (rec & e & _ & Hfail)].
    + apply String.eqb_eq in Htopic. contradiction.
    + unfold bind at 1. unfold liftW.
      destruct (deserializeConsumerOffset s record (world st)) as [[rec' err'] w1].
      cbn [fst] in Hfail. injection Hfail as -> ->.
      apply Hgen.
  - apply Hgen.
Qed.

(** [deserializePayload] reads three fields of the options. *)
Lemma deserializePayload_options (s : Service C) record payloadType opts1 opts2 :
  MaxPayloadSize opts1 = MaxPayloadSize opts2 ->
  Troubleshoot opts1 = Troubleshoot opts2 ->
  IncludeRawData opts1 = IncludeRawData opts2 ->
  deserializePayload s record payloadType opts1
  = deserializePayload s record payloadType opts2.
Proof.
  destruct opts1, opts2. cbn. intros -> -> ->. reflexivity.
Qed.

(** C10: two option values that differ at most in [KeyEncoding] and
    [ValueEncoding] give the same [DeserializeRecord]: the same result and
    the same calls, on every record and from every state. *)
Theorem DeserializeRecord_ignores_forced_encodings
    (s : Service C) record opts1 opts2 (st : EngineSt) :
  MaxPayloadSize opts1 = MaxPayloadSize opts2 ->
  Troubleshoot opts1 = Troubleshoot opts2 ->
  IncludeRawData opts1 = IncludeRawData opts2 ->
  DeserializeRecord deserializeConsumerOffset recordHeaders s record opts1 st
  = DeserializeRecord deserializeConsumerOffset recordHeaders s record opts2 st.
Proof.
  intros Hmax Hts Hraw. unfold DeserializeRecord.
  rewrite Hmax.
  set (o1 := if MaxPayloadSize opts2 <=? 0 then _ else opts1).
  set (o2 := if MaxPayloadSize opts2 <=? 0 then _ else opts2).
  assert (Hkey : deserializePayload s record PayloadTypeKey o1
                 = deserializePayload s record PayloadTypeKey o2).
  { apply deserializePayload_options; unfold o1, o2;
      destruct (MaxPayloadSize opts2 <=? 0); cbn; congruence. }
  assert (Hval : deserializePayload s record PayloadTypeValue o1
                 = deserializePayload s record PayloadTypeValue o2).
  { apply deserializePayload_options; unfold o1, o2;
      destruct (MaxPayloadSize opts2 <=? 0); cbn; congruence. }
  rewrite Hkey, Hval. reflexivity.
Qed.

(** *** The encoding loops *)

(** A loop whose chain has no codec of the requested name changes
    nothing. *)
Lemma serializeLoop_no_match serdes input payloadType :
  (forall c, In c serdes -> Name c <> InEncoding input) ->
  forall found err res ts (st : EngineSt),
    serializeLoop serdes input payloadType found err res ts st
    = ((found, err, res, ts), st).
Proof.
  induction serdes as [|serde rest IH]; intros Hno found err res ts st.
  - reflexivity.
  - cbn [serializeLoop].
    assert (Hne : String.eqb (InEncoding input) (Name serde) = false).
    { apply String.eqb_neq. intros Heq. apply (Hno serde); [now left | now symmetry]. }
    rewrite Hne. cbn [negb].
    apply IH. intros c Hin. apply Hno. now right.
Qed.

(** The key loop calls no codec for the value. *)
Lemma serializeLoop_key_calls serdes input :
  forall found err res ts (st : EngineSt),
    filter isValueCall
      (calls (snd (serializeLoop serdes input PayloadTypeKey found err res ts st)))
    = filter isValueCall (calls st).
Proof.
  induction serdes as [|serde rest IH]; intros found err res ts st.
  - reflexivity.
  - cbn [serializeLoop].
    destruct (negb (String.eqb (InEncoding input) (Name serde))); [apply IH|].
    unfold bind at 1, callSerializeObject.
    destruct (SerializeObject serde (Payload input) PayloadTypeKey (Options input)
                (world st)) as [[bytes serErr] w1].
    destruct serErr as [e|].
    + rewrite IH. cbn [calls]. rewrite filter_app. cbn. now rewrite app_nil_r.
    + unfold ret. cbn [snd calls]. rewrite filter_app. cbn. now rewrite app_nil_r.
Qed.

Lemma withTopicOption_encoding topic input :
  InEncoding (withTopicOption topic input) = InEncoding input.
Proof. unfold withTopicOption. destruct (negb (String.eqb topic "")); reflexivity. Qed.

(** The result one side stores: label and bytes of the loop's result, and
    the loop's reports. *)
Let sideResult
    (outcome : bool * option error * RecordPayloadSerializeResult
               * list TroubleshootingReport)
  : RecordPayloadSerializeResult :=
  let '(_, _, res, ts) := outcome in
  {| SerEncoding := SerEncoding res; SerPayload := SerPayload res;
     SerTroubleshooting := Some ts |}.

Lemma SerializeRecord_key_failure (s : Service C) input (st : EngineSt) e :
  keySideError s input st = Some e ->
  SerializeRecord s input st
  = (({| OutKey := Some (sideResult (fst (keyOutcome s input st)));
         OutValue := None |}, Some e),
     snd (keyOutcome s input st)).
Proof.
  unfold SerializeRecord, keySideError, keyOutcome, sideResult.
  unfold bind at 1.
  destruct (serializeLoop (SerDes s)
              (withTopicOption (InTopic input) (InKey input))
              PayloadTypeKey false None zeroSerResult [] st)
    as [[[[found err] keyRes] keyTS] st1].
  cbn [fst snd]. rewrite withTopicOption_encoding.
  intros ->. reflexivity.
Qed.

Lemma SerializeRecord_key_success (s : Service C) input (st : EngineSt) :
  keySideError s input st = None ->
  SerializeRecord s input st
  = (({| OutKey := Some (sideResult (fst (keyOutcome s input st)));
         OutValue :=
           Some (sideResult
                   (fst (valueOutcome s input (snd (keyOutcome s input st))))) |},
      valueSideError s input (snd (keyOutcome s input st))),
     snd (valueOutcome s input (snd (keyOutcome s input st)))).
Proof.
  unfold SerializeRecord, keySideError, valueSideError, keyOutcome,
    valueOutcome, sideResult.
  unfold bind at 1.
  destruct (serializeLoop (SerDes s)
              (withTopicOption (InTopic input) (InKey input))
              PayloadTypeKey false None zeroSerResult [] st)
    as [[[[found err] keyRes] keyTS] st1].
  cbn [fst snd]. rewrite withTopicOption_encoding.
  intros ->. unfold bind.
  destruct (serializeLoop (SerDes s)
              (withTopicOption (InTopic input) (InValue input))
              PayloadTypeValue false None zeroSerResult [] st1)
    as [[[[found' err'] valRes] valTS] st2].
  cbn [fst snd]. rewrite withTopicOption_encoding. reflexivity.
Qed.

(** C1, as the code has it: the key side runs first.  When it fails, by a
    codec error or because no codec has the requested name,
    [SerializeRecord] returns at once the key-side result, no value-side
    result and the key-side error, and has called no codec for the value;
    in particular an unknown key encoding returns without any call.  Only
    when the key side succeeds is the value side run, and then both
    results are returned together with the value-side error, if any. *)
Theorem SerializeRecord_key_failure_returns_early
    (s : Service C) (input : SerializeInput) (st : EngineSt) :
  (forall e,
      keySideError s input st = Some e ->
      exists keyRes,
        fst (SerializeRecord s input st)
        = ({| OutKey := Some keyRes; OutValue := None |}, Some e) /\
        snd (SerializeRecord s input st) = snd (keyOutcome s input st) /\
        filter isValueCall (calls (snd (SerializeRecord s input st)))
        = filter isValueCall (calls st)) /\
  ((forall c, In c (SerDes s) -> Name c <> InEncoding (InKey input)) ->
      SerializeRecord s input st
      = (({| OutKey := Some {| SerEncoding := ""; SerPayload := None;
                               SerTroubleshooting := Some [] |};
             OutValue := None |},
          Some (ErrorfS "invalid encoding for key" (InEncoding (InKey input)))),
         st)) /\
  (keySideError s input st = None ->
      exists keyRes valRes,
        fst (fst (SerializeRecord s input st))
        = {| OutKey := Some keyRes; OutValue := Some valRes |} /\
        snd (fst (SerializeRecord s input st))
        = valueSideError s input (snd (keyOutcome s input st))).
Proof.
  split; [|split].
  - intros e He.
    rewrite (SerializeRecord_key_failure s input st e He). cbn [fst snd].
    eexists. split; [reflexivity|]. split; [reflexivity|].
    apply serializeLoop_key_calls.
  - intros Hno.
    assert (Hrun : keyOutcome s input st = ((false, None, zeroSerResult, []), st)).
    { unfold keyOutcome. apply serializeLoop_no_match.
      intros c Hin. rewrite withTopicOption_encoding. now apply Hno. }
    rewrite (SerializeRecord_key_failure s input st
               (ErrorfS "invalid encoding for key" (InEncoding (InKey input)))).
    + rewrite Hrun. reflexivity.
    + unfold keySideError. rewrite Hrun. reflexivity.
  - intros Hok.
    rewrite (SerializeRecord_key_success s input st Hok). cbn [fst snd].
    do 2 eexists. split; reflexivity.
Qed.

End Engine.

Import Fixtures.

(** *** The chain of [NewService] *)

(** C2, as the code has it: the chain built by [NewService] is, in order,
    none, JSON, JSON with schema, XML, Avro, Protobuf, Protobuf with
    schema, MessagePack, Smile, UTF-8, text, unsigned integer: the plain
    Protobuf codec comes before the schema-registry one. *)
Theorem NewService_chain_order
    {SchemaSvc ProtoSvc MsgPackSvc : Type}
    (schemaService : SchemaSvc) (protoSvc : ProtoSvc) (msgPackSvc : MsgPackSvc) :
  SerDes (NewService schemaService protoSvc msgPackSvc)
  = [ NoneSerde; JSONSerde; JSONSchemaSerde schemaService; XMLSerde;
      AvroSerde schemaService;
      ProtobufSerde protoSvc; ProtobufSchemaSerde protoSvc;
      MsgPackSerde msgPackSvc; SmileSerde; UTF8Serde; TextSerde; UintSerde ]
  /\ nth_error (SerDes (NewService schemaService protoSvc msgPackSvc)) 5
     = nth_error (specChainOrder schemaService protoSvc msgPackSvc) 6
  /\ nth_error (SerDes (NewService schemaService protoSvc msgPackSvc)) 6
     = nth_error (specChainOrder schemaService protoSvc msgPackSvc) 5.
Proof. repeat split. Qed.

(** The chain is not in the order the specification lists: there the
    Protobuf codec with schema comes sixth and the one without seventh. *)
Lemma NewService_chain_not_spec_order :
  SerDes (NewService tt tt tt) <> specChainOrder tt tt tt.
Proof. unfold NewService, specChainOrder. cbn. intros Heq. discriminate Heq. Qed.

(** *** The engine at work on stub codecs *)

(** The text value of [textRecord] through a chain whose first codec fails
    and whose second succeeds: the label is the second codec's, and the
    third codec is not called. *)
Lemma deserializePayload_label_of_first_success_witness :
  len (payloadFromRecord textRecord PayloadTypeValue) <> 0 /\
  Encoding (fst (deserializePayload stubService textRecord PayloadTypeValue
                   quietOpts engineSt0)) = "text" /\
  calls (snd (deserializePayload stubService textRecord PayloadTypeValue
                quietOpts engineSt0))
  = [ CallDeserialize (Failing "json" "first byte indicates this it not valid JSON")
        PayloadTypeValue;
      CallDeserialize (Succeeding "text" "text") PayloadTypeValue ].
Proof.
  assert (Hlen : len (payloadFromRecord textRecord PayloadTypeValue) <> 0)
    by (vm_compute; discriminate).
  split; [exact Hlen|].
  destruct (deserializePayload_label_of_first_success stubService textRecord
              PayloadTypeValue quietOpts engineSt0 Hlen) as [_ Hfirst].
  destruct (Hfirst
              [Failing "json" "first byte indicates this it not valid JSON"]
              (Succeeding "text" "text") [Succeeding "uint" "uint"]
              [{| SerdeName := "json";
                  Message := "first byte indicates this it not valid JSON" |}]
              (Some (stubRP "text" (Some [x68; x69; x21]))) 2%nat)
    as (Hcalls & _ & Hlabel).
  { split; [reflexivity|]. exists 1%nat.
    split; [|reflexivity].
    exact (allFail_cons textRecord PayloadTypeValue
             (Failing "json" "first byte indicates this it not valid JSON") []
             0%nat None
             (Errorf "first byte indicates this it not valid JSON") 1%nat 1%nat []
             eq_refl (allFail_nil _ _ _)). }
  split; [|exact Hcalls].
  apply (Hlabel _ eq_refl). cbn. discriminate.
Defined.

(** The same value through a chain on which every codec fails, with
    [Troubleshoot] off: binary, with both reports attached. *)
Lemma deserializePayload_binary_forces_troubleshooting_witness :
  len (payloadFromRecord textRecord PayloadTypeValue) <> 0 /\
  Troubleshoot quietOpts = false /\
  Encoding (fst (deserializePayload failingService textRecord PayloadTypeValue
                   quietOpts engineSt0)) = PayloadEncodingBinary /\
  Troubleshooting (fst (deserializePayload failingService textRecord
                          PayloadTypeValue quietOpts engineSt0))
  = Some [ {| SerdeName := "json"; Message := "not json" |};
           {| SerdeName := "xml"; Message := "not xml" |} ].
Proof.
  assert (Hlen : len (payloadFromRecord textRecord PayloadTypeValue) <> 0)
    by (vm_compute; discriminate).
  split; [exact Hlen|]. split; [reflexivity|].
  destruct (deserializePayload_binary_forces_troubleshooting failingService
              textRecord PayloadTypeValue quietOpts engineSt0 Hlen) as [Hnone _].
  apply (Hnone 2%nat).
  exact (allFail_cons textRecord PayloadTypeValue
           (Failing "json" "not json") [Failing "xml" "not xml"]
           0%nat None (Errorf "not json") 1%nat 2%nat _ eq_refl
           (allFail_cons textRecord PayloadTypeValue
              (Failing "xml" "not xml") []
              1%nat None (Errorf "not xml") 2%nat 2%nat [] eq_refl
              (allFail_nil _ _ _))).
Defined.

(** A three-byte value under a maximum of two bytes. *)
Lemma DeserializeRecord_too_large_witness :
  generalPath noConsumerOffset stubService textRecord (world engineSt0) /\
  exists key val,
    fst (DeserializeRecord noConsumerOffset kgo.Headers stubService textRecord
           tinyOpts engineSt0)
    = Some {| Key := Some key; Value := Some val;
              Headers := kgo.Headers textRecord |} /\
    (configuredMaxPayloadSize tinyOpts < len (kgo.Key textRecord) ->
       IsPayloadTooLarge key = true /\ NormalizedPayload key = None /\
       Encoding key <> "" /\ PayloadSizeBytes key = len (kgo.Key textRecord)) /\
    (configuredMaxPayloadSize tinyOpts < len (kgo.Value textRecord) ->
       IsPayloadTooLarge val = true /\ NormalizedPayload val = None /\
       Encoding val <> "" /\ PayloadSizeBytes val = len (kgo.Value textRecord)).
Proof.
  assert (Hgeneral : generalPath noConsumerOffset stubService textRecord
                       (world engineSt0))
    by (left; cbn; discriminate).
  split; [exact Hgeneral|].
  exact (DeserializeRecord_too_large noConsumerOffset kgo.Headers stubService
           textRecord tinyOpts engineSt0 Hgeneral).
Defined.

(** Forcing encodings on [quietOpts] changes nothing. *)
Lemma DeserializeRecord_ignores_forced_encodings_witness :
  DeserializeRecord noConsumerOffset kgo.Headers stubService textRecord
    {| KeyEncoding := "uint"; ValueEncoding := "json"; MaxPayloadSize := 0;
       Troubleshoot := false; IncludeRawData := false |} engineSt0
  = DeserializeRecord noConsumerOffset kgo.Headers stubService textRecord
      quietOpts engineSt0.
Proof.
  exact (DeserializeRecord_ignores_forced_encodings noConsumerOffset kgo.Headers
           stubService textRecord
           {| KeyEncoding := "uint"; ValueEncoding := "json"; MaxPayloadSize := 0;
              Troubleshoot := false; IncludeRawData := false |}
           quietOpts engineSt0 eq_refl eq_refl eq_refl).
Defined.

(** An unknown key encoding: the value, which the chain could encode, is
    not attempted. *)
Lemma SerializeRecord_key_failure_returns_early_witness :
  (forall c, In c (SerDes stubService) -> Name c <> InEncoding (InKey badKeyInput)) /\
  SerializeRecord stubService badKeyInput engineSt0
  = (({| OutKey := Some {| SerEncoding := ""; SerPayload := None;
                           SerTroubleshooting := Some [] |};
         OutValue := None |},
      Some (ErrorfS "invalid encoding for key" "nope")),
     engineSt0).
Proof.
  assert (Hno : forall c, In c (SerDes stubService) ->
                          Name c <> InEncoding (InKey badKeyInput)).
  { intros c [<-|[<-|[<-|[]]]]; cbn; discriminate. }
  split; [exact Hno|].
  exact (proj1 (proj2 (SerializeRecord_key_failure_returns_early stubService
                         badKeyInput engineSt0)) Hno).
Defined.

(** C1 as stated fails: a key-side failure leaves the value side without a
    result, and when both sides would fail the error returned is the
    key's. *)
Lemma SerializeRecord_value_not_attempted_after_key_failure :
  ~ (forall (s : Service Stub) input (st : EngineSt),
        keySideError s input st <> None ->
        OutValue (fst (fst (SerializeRecord s input st))) <> None /\
        (valueSideError s input (snd (keyOutcome s input st)) <> None ->
         snd (fst (SerializeRecord s input st))
         = valueSideError s input (snd (keyOutcome s input st)))).
Proof.
  intros Hclaim.
  destruct (Hclaim stubService badKeyInput engineSt0) as [Hvalue _].
  - cbn. discriminate.
  - apply Hvalue. reflexivity.
Qed.

(** *** Further runs *)

(** An empty value and an absent key: both "none" with size zero, and told
    apart by the null flag. *)
Example deserializePayload_empty_and_absent :
  let record := {| kgo.Key := None; kgo.Value := Some [];
                   kgo.Topic := "orders"; kgo.Headers := [] |} in
  let key := fst (deserializePayload stubService record PayloadTypeKey
                    quietOpts engineSt0) in
  let val := fst (deserializePayload stubService record PayloadTypeValue
                    quietOpts engineSt0) in
  (Encoding key, PayloadSizeBytes key, IsPayloadNull key)
  = (PayloadEncodingNone, 0, true) /\
  (Encoding val, PayloadSizeBytes val, IsPayloadNull val)
  = (PayloadEncodingNone, 0, false).
Proof. split; reflexivity. Qed.

(** A winner without label: binary, with the report of the codec that failed
    before it, although [Troubleshoot] is off. *)
Example deserializePayload_unlabelled_winner :
  let r := fst (deserializePayload unlabelledService textRecord PayloadTypeValue
                  quietOpts engineSt0) in
  Encoding r = PayloadEncodingBinary /\
  Troubleshooting r = Some [ {| SerdeName := "json"; Message := "not json" |} ].
Proof. split; reflexivity. Qed.

(** With [Troubleshoot] off and a labelled winner nothing is attached. *)
Example deserializePayload_quiet_success :
  Troubleshooting (fst (deserializePayload stubService textRecord PayloadTypeValue
                          quietOpts engineSt0)) = None.
Proof. reflexivity. Qed.

Example configuredMaxPayloadSize_default :
  configuredMaxPayloadSize quietOpts = 1000000 /\
  configuredMaxPayloadSize tinyOpts = 2.
Proof. split; reflexivity. Qed.

(** Both sides ask for an unknown encoding: the error is the key's and the
    value has no result. *)
Example SerializeRecord_both_unknown :
  fst (SerializeRecord stubService bothFailInput engineSt0)
  = ({| OutKey := Some {| SerEncoding := ""; SerPayload := None;
                          SerTroubleshooting := Some [] |};
        OutValue := None |},
      Some (ErrorfS "invalid encoding for key" "nope")).
Proof. reflexivity. Qed.

(** The key encodes and the value's codec fails: both results come back,
    with the value-side error, and the codecs called are the key's, then the
    value's; the topic option is appended to the caller's. *)
Example SerializeRecord_value_fails :
  SerializeRecord stubService goodInput engineSt0
  = (({| OutKey := Some {| SerEncoding := "text"; SerPayload := Some [x7b; x7d];
                           SerTroubleshooting := Some [] |};
         OutValue :=
           Some {| SerEncoding := ""; SerPayload := None;
                   SerTroubleshooting :=
                     Some [ {| SerdeName := "json";
                               Message :=
                                 "first byte indicates this it not valid JSON" |} ] |} |},
      Some (Errorf "first byte indicates this it not valid JSON")),
     {| world := 2%nat;
        calls := [ CallSerialize (Succeeding "text" "text") PayloadTypeKey;
                   CallSerialize
                     (Failing "json" "first byte indicates this it not valid JSON")
                     PayloadTypeValue ] |}).
Proof. reflexivity. Qed.

Example withTopicOption_appends :
  Options (withTopicOption "orders"
             {| Payload := ANil; InEncoding := "json";
                Options := [CallerOpt "index"] |})
  = [CallerOpt "index"; WithTopic "orders"].
Proof. reflexivity. Qed.

End ServiceFacts.

(** ** The registry client *)

Module SchemaFacts.

Import Schema.

(** *** The receiving loop *)

Lemma receiveAll_error arrived :
  forall schemas,
    (exists r, In r arrived /\ is_err r = true) ->
    exists e,
      In (Err e) arrived /\
      receiveAll arrived schemas
      = Err (Wrapf "failed to fetch at least one schema" e).
Proof.
  induction arrived as [|res rest IH]; intros schemas (r & Hin & Hr).
  - destruct Hin.
  - destruct res as [schemaRes | err].
    + destruct Hin as [<- | Hin]; [discriminate Hr|].
      destruct (IH (schemas ++ [schemaRes])) as (e & He & Hrun).
      { exists r. now split. }
      exists e. split; [now right | exact Hrun].
    + exists err. split; [now left | reflexivity].
Qed.

Lemma receiveAll_success arrived :
  forall schemas,
    (forall r, In r arrived -> is_err r = false) ->
    exists fetched,
      receiveAll arrived schemas = Ok (schemas ++ fetched) /\
      map Ok fetched = arrived.
Proof.
  induction arrived as [|res rest IH]; intros schemas Hall.
  - exists []. now rewrite app_nil_r.
  - destruct res as [schemaRes | err].
    + destruct (IH (schemas ++ [schemaRes])) as (fetched & Hrun & Hmap).
      { intros r Hin. apply Hall. now right. }
      exists (schemaRes :: fetched). cbn [receiveAll map].
      rewrite Hrun, <- app_assoc, Hmap. now split.
    + specialize (Hall (Err err) (or_introl eq_refl)). discriminate Hall.
Qed.

(** C6: when the bulk endpoint answers not-found, [GetSchemas] is the
    fallback: it lists the subjects and fetches the latest version of each.
    If the fetch of one subject fails, then in whatever order the results
    arrive the operation returns an error, that of a failed fetch, and no
    list; if every fetch succeeds it returns the schemas fetched, in
    arrival order. *)
Theorem GetSchemas_fallback_fails_as_a_whole
    (c : Client) (sched : Schedule) showSoftDeleted res subjects :
  GET_schemas c showSoftDeleted = Ok res ->
  StatusCode res = http_StatusNotFound ->
  GetSubjects c showSoftDeleted = Ok {| SubjectsResponse.Subjects := subjects |} ->
  GetSchemas c sched showSoftDeleted
  = GetSchemasIndividually c sched showSoftDeleted /\
  ((exists s, In s subjects /\
              is_err (GetSchemaBySubject c s "latest" showSoftDeleted) = true) ->
   exists s e,
     In s subjects /\
     GetSchemaBySubject c s "latest" showSoftDeleted = Err e /\
     GetSchemas c sched showSoftDeleted
     = Err (Wrapf "failed to fetch at least one schema" e)) /\
  ((forall s, In s subjects ->
              is_err (GetSchemaBySubject c s "latest" showSoftDeleted) = false) ->
   exists schemas,
     GetSchemas c sched showSoftDeleted = Ok schemas /\
     Permutation (map Ok schemas)
       (map (fun s => GetSchemaBySubject c s "latest" showSoftDeleted) subjects)).
Proof.
  intros Hbulk Hstatus Hsubjects.
  assert (Hfallback : GetSchemas c sched showSoftDeleted
                      = GetSchemasIndividually c sched showSoftDeleted).
  { unfold GetSchemas. rewrite Hbulk, Hstatus. reflexivity. }
  rewrite Hfallback. split; [reflexivity|].
  unfold GetSchemasIndividually. rewrite Hsubjects.
  cbn [SubjectsResponse.Subjects].
  set (sent := map (fun s => GetSchemaBySubject c s "latest" showSoftDeleted)
                   subjects).
  pose proof (arrival_perm sched sent) as Hperm.
  split.
  - intros (s & Hin & Hfail).
    destruct (receiveAll_error (arrival sched sent) []) as (e & He & Hrun).
    { exists (GetSchemaBySubject c s "latest" showSoftDeleted). split; [|exact Hfail].
      apply (Permutation_in _ (Permutation_sym Hperm)).
      unfold sent. apply in_map_iff. now exists s. }
    apply (Permutation_in _ Hperm) in He.
    unfold sent in He. apply in_map_iff in He. destruct He as (s' & Hs' & Hin').
    exists s', e. repeat split; assumption.
  - intros Hall.
    destruct (receiveAll_success (arrival sched sent) []) as (fetched & Hrun & Hmap).
    { intros r Hr. apply (Permutation_in _ Hperm) in Hr.
      unfold sent in Hr. apply in_map_iff in Hr. destruct Hr as (s & <- & Hin).
      now apply Hall. }
    exists fetched. split; [exact Hrun|]. now rewrite Hmap.
Qed.

(** *** Error statuses *)




Import Fixtures.



(** The connectivity check on a registry that is down: the generic error,
    although the body parsed as a registry error. *)
Example CheckConnectivity_on_error_status :
  registryAnswer brokenRegistry OpCheckConnectivity
  = Some (500, Some (50001, "Error in the backend data store")) /\
  CheckConnectivity brokenRegistry
  = Some (ErrorfDS "response is an error. Status:" 500 "").
Proof. split; reflexivity. Qed.

(** [GetSubjects], which has no check of the status, turns the answer of a
    registry that is down into an empty list of subjects. *)
Lemma GetSubjects_on_error_status :
  registryAnswer brokenRegistry (OpGetSubjects false)
  = Some (500, Some (50001, "Error in the backend data store")) /\
  GetSubjects brokenRegistry false = Ok {| SubjectsResponse.Subjects := [] |}.
Proof. split; reflexivity. Qed.

(** Subjects A, B and C on a registry without bulk endpoint, the fetch of B
    failing: the listing fails, whether the results arrive in order or in
    reverse. *)
Lemma GetSchemas_fallback_fails_as_a_whole_witness :
  GET_schemas oldRegistry false = Ok (mkResponse 404 None None "") /\
  GetSubjects oldRegistry false
  = Ok {| SubjectsResponse.Subjects := ["A"; "B"; "C"] |} /\
  (exists s e,
      In s ["A"; "B"; "C"] /\
      GetSchemaBySubject oldRegistry s "latest" false = Err e /\
      GetSchemas oldRegistry reversed false
      = Err (Wrapf "failed to fetch at least one schema" e)).
Proof.
  split; [reflexivity|]. split; [reflexivity|].
  apply (proj1 (proj2 (GetSchemas_fallback_fails_as_a_whole oldRegistry reversed
                         false (mkResponse 404 None None "") ["A"; "B"; "C"]
                         eq_refl eq_refl eq_refl))).
  exists "B". split; [right; left; reflexivity | reflexivity].
Defined.

(** *** Further runs *)

(** A response without type tag is given the Avro tag. *)
Example GetSchemaBySubject_defaults_to_avro :
  option_map SchemaVersionedResponse.Type_
    (match GetSchemaBySubject oldRegistry "A" "latest" false with
     | Ok r => Some r
     | Err _ => None
     end)
  = Some "AVRO".
Proof. reflexivity. Qed.

Example RestErr_message :
  Error (RestErr 40401 "Subject not found")
  = "schema registry request failed: 40401 - Subject not found".
Proof. reflexivity. Qed.

End SchemaFacts.

(** ** More on the dispatch engine *)

Module ServiceMore.

Import Service ServiceFacts.

Section Engine.

Context {W C : Type} `{Serde W C}.

Variable deserializeConsumerOffset :
  Service C -> kgo.Record -> M W (option Record * option error).
Variable recordHeaders : kgo.Record -> list (string * bytes).

(** The reports of a chain that fails name its codecs, one each, in chain
    order. *)
Lemma allFail_names record payloadType (serdes : list C) w w' reports :
  allFail record payloadType serdes w w' reports ->
  map SerdeName reports = map Name serdes.
Proof.
  induction 1 as [w | serde rest w rp e w1 w' reports Hc Hall IH].
  - reflexivity.
  - cbn [map SerdeName]. now rewrite IH.
Qed.

(** The two ways a payload that is not empty is decoded. *)
Lemma deserializePayload_cases (s : Service C) record payloadType opts
    (st : EngineSt) :
  len (payloadFromRecord record payloadType) <> 0 ->
  (exists w' reports rp err,
      allFail record payloadType (SerDes s) (world st) w' reports /\
      noSerdeFound rp err = true /\
      deserializePayload s record payloadType opts st
      = (finishPayload (payloadFromRecord record payloadType) opts rp err reports,
         {| world := w';
            calls := calls st
                     ++ map (fun c => CallDeserialize c payloadType) (SerDes s) |}))
  \/
  (exists pre serde post reports rp w2,
      firstSuccess record payloadType (SerDes s) (world st)
        pre serde post reports rp w2 /\
      deserializePayload s record payloadType opts st
      = (finishPayload (payloadFromRecord record payloadType) opts rp None reports,
         {| world := w2;
            calls := calls st
                     ++ map (fun c => CallDeserialize c payloadType)
                          (pre ++ [serde]) |})).
Proof.
  intros Hlen.
  rewrite (deserializePayload_nonempty s record payloadType opts st Hlen).
  destruct st as [w cs]. cbn [world calls].
  destruct (chain_outcome record payloadType (SerDes s) w)
    as [(w' & reports & Hall) | (pre & serde & post & reports & rp & w2 & Hfirst)].
  - left.
    destruct (trySerDes_allFail record payloadType (SerDes s) w w' reports Hall
                None None [] cs eq_refl) as (rp' & err' & Heq & Hnone).
    exists w', reports, rp', err'. rewrite Heq. now repeat split.
  - right. exists pre, serde, post, reports, rp, w2. split; [exact Hfirst|].
    destruct Hfirst as (Heq & w1 & Hall & Hok). rewrite Heq.
    now rewrite (trySerDes_firstSuccess record payloadType pre w w1 reports Hall
                   serde post rp w2 None None [] cs Hok).
Qed.

Lemma finishPayload_null_and_raw payload opts rp err ts :
  IsPayloadNull (finishPayload payload opts rp err ts) = is_nil payload /\
  (IncludeRawData opts = true ->
   OriginalPayload (finishPayload payload opts rp err ts) = payload).
Proof.
  unfold finishPayload.
  destruct (noSerdeFound rp err), (Troubleshoot opts), (IncludeRawData opts),
    (len payload >? MaxPayloadSize opts); split; try reflexivity; discriminate.
Qed.

(** X1: whatever the payload, empty or not, and whatever the chain does, the
    result carries the payload's length, tells a nil payload from a present
    one, has a label that is not empty, and holds the raw bytes when they
    were asked for. *)
Theorem deserializePayload_size_null_label_raw
    (s : Service C) record payloadType opts (st : EngineSt) :
  PayloadSizeBytes (fst (deserializePayload s record payloadType opts st))
  = len (payloadFromRecord record payloadType) /\
  IsPayloadNull (fst (deserializePayload s record payloadType opts st))
  = is_nil (payloadFromRecord record payloadType) /\
  Encoding (fst (deserializePayload s record payloadType opts st)) <> "" /\
  (IncludeRawData opts = true ->
   OriginalPayload (fst (deserializePayload s record payloadType opts st))
   = payloadFromRecord record payloadType).
Proof.
  destruct (Z.eq_dec (len (payloadFromRecord record payloadType)) 0) as [Hzero|Hlen].
  - unfold deserializePayload. rewrite Hzero. cbn [Z.eqb ret fst].
    unfold ret. cbn [fst PayloadSizeBytes IsPayloadNull Encoding OriginalPayload].
    repeat split; try discriminate. now intros ->.
  - rewrite (deserializePayload_nonempty s record payloadType opts st Hlen).
    destruct (trySerDes (SerDes s) record payloadType None None [] st)
      as [[[rp err] ts] st'].
    cbn [fst].
    destruct (finishPayload_size (payloadFromRecord record payloadType) opts rp err ts)
      as [Hsize Hlabel].
    destruct (finishPayload_null_and_raw (payloadFromRecord record payloadType)
                opts rp err ts) as [Hnull Hraw].
    auto.
Qed.

(** An empty payload leaves the state alone. *)
Lemma deserializePayload_empty_state
    (s : Service C) record payloadType opts (st : EngineSt) :
  len (payloadFromRecord record payloadType) = 0 ->
  snd (deserializePayload s record payloadType opts st) = st.
Proof.
  intros Hzero. unfold deserializePayload. now rewrite Hzero.
Qed.

(** X2: an empty payload, nil or of length zero, is labelled "none" without
    any codec being called: the state is untouched, the result is never
    flagged too large and never carries troubleshooting reports, whatever
    the options. *)
Theorem deserializePayload_empty
    (s : Service C) record payloadType opts (st : EngineSt) :
  len (payloadFromRecord record payloadType) = 0 ->
  snd (deserializePayload s record payloadType opts st) = st /\
  Encoding (fst (deserializePayload s record payloadType opts st))
  = PayloadEncodingNone /\
  IsPayloadTooLarge (fst (deserializePayload s record payloadType opts st)) = false /\
  Troubleshooting (fst (deserializePayload s record payloadType opts st)) = None /\
  ParsedPayload (fst (deserializePayload s record payloadType opts st)) = ANil.
Proof.
  intros Hzero. unfold deserializePayload. rewrite Hzero.
  cbn [Z.eqb]. unfold ret. cbn. repeat split.
Qed.

(** The codecs [deserializePayload] calls are the first [k] of the chain, in
    chain order, each once; [k] is zero for an empty payload. *)
Lemma deserializePayload_calls_prefix
    (s : Service C) record payloadType opts (st : EngineSt) :
  exists k,
    (k <= length (SerDes s))%nat /\
    calls (snd (deserializePayload s record payloadType opts st))
    = calls st
      ++ map (fun c => CallDeserialize c payloadType) (firstn k (SerDes s)).
Proof.
  destruct (Z.eq_dec (len (payloadFromRecord record payloadType)) 0) as [Hzero|Hlen].
  - exists 0%nat. split; [lia|].
    rewrite (deserializePayload_empty_state s record payloadType opts st Hzero).
    cbn. now rewrite app_nil_r.
  - destruct (deserializePayload_cases s record payloadType opts st Hlen)
      as [(w' & reports & rp & err & _ & _ & Heq)
         | (pre & serde & post & reports & rp & w2 & (Hchain & _) & Heq)];
      rewrite Heq; cbn [snd calls].
    + exists (length (SerDes s)). split; [lia|]. now rewrite firstn_all.
    + exists (length (pre ++ [serde])). rewrite Hchain. split.
      * rewrite !length_app. cbn. lia.
      * replace (pre ++ serde :: post) with ((pre ++ [serde]) ++ post)
          by now rewrite <- app_assoc.
        now rewrite firstn_app, firstn_all, Nat.sub_diag, firstn_O, app_nil_r.
Qed.

(** X3: on a payload that is not empty, with troubleshooting requested, the
    result carries exactly the reports of the codecs that failed.  The chain
    starts with codecs [failed] that, tried in order from the engine's
    world, each return an error; [ts] holds one report for each of them, in
    that order, with the codec's name and the text of its error; and either
    [failed] is the whole chain, or the next codec of the chain is called
    in the world the failures left and returns a nil error.  The calls made
    are those of [failed], then that of the winner, and no other. *)
Theorem deserializePayload_reports_name_the_failed_prefix
    (s : Service C) record payloadType opts (st : EngineSt) :
  len (payloadFromRecord record payloadType) <> 0 ->
  Troubleshoot opts = true ->
  exists failed ts w1,
    allFail record payloadType failed (world st) w1 ts /\
    length ts = length failed /\
    map SerdeName ts = map Name failed /\
    Troubleshooting (fst (deserializePayload s record payloadType opts st))
    = Some ts /\
    ((SerDes s = failed /\
      calls (snd (deserializePayload s record payloadType opts st))
      = calls st ++ map (fun c => CallDeserialize c payloadType) failed)
     \/
     (exists winner post rp w2,
         SerDes s = failed ++ winner :: post /\
         DeserializePayload winner record payloadType w1 = ((rp, None), w2) /\
         calls (snd (deserializePayload s record payloadType opts st))
         = calls st
           ++ map (fun c => CallDeserialize c payloadType) (failed ++ [winner]))).
Proof.
  intros Hlen Hts.
  assert (Hattach : forall rp err ts,
    Troubleshooting (finishPayload (payloadFromRecord record payloadType)
                       opts rp err ts) = Some ts).
  { intros rp err ts. unfold finishPayload. rewrite Hts.
    destruct (noSerdeFound rp err), (IncludeRawData opts),
      (len (payloadFromRecord record payloadType) >? MaxPayloadSize opts);
      reflexivity. }
  assert (Hcount : forall serdes w w' reports,
    allFail record payloadType serdes w w' reports ->
    length reports = length serdes).
  { intros serdes w w' reports Hall.
    rewrite <- (length_map SerdeName reports), <- (length_map Name serdes).
    now rewrite (allFail_names _ _ _ _ _ _ Hall). }
  destruct (deserializePayload_cases s record payloadType opts st Hlen)
    as [(w' & reports & rp & err & Hall & _ & Heq)
       | (pre & serde & post & reports & rp & w2 & (Hchain & w1 & Hall & Hok) & Heq)];
    rewrite Heq; cbn [fst snd calls].
  - exists (SerDes s), reports, w'.
    split; [exact Hall|]. split; [apply (Hcount _ _ _ _ Hall)|].
    split; [apply (allFail_names _ _ _ _ _ _ Hall)|].
    split; [apply Hattach|]. left. now split.
  - exists pre, reports, w1.
    split; [exact Hall|]. split; [apply (Hcount _ _ _ _ Hall)|].
    split; [apply (allFail_names _ _ _ _ _ _ Hall)|].
    split; [apply Hattach|]. right.
    exists serde, post, rp, w2. now repeat split.
Qed.

(** X4: the engine hands the winner's work through: when the first codec to
    succeed reports a label, the parsed value and the schema identifier of
    the result are the codec's; within the size limit so are the normalized
    payload and the too-large flag; and without the raw-data option so is
    the original payload. *)
Theorem deserializePayload_passes_winner_through
    (s : Service C) record payloadType opts (st : EngineSt)
    pre serde post reports p w2 :
  len (payloadFromRecord record payloadType) <> 0 ->
  firstSuccess record payloadType (SerDes s) (world st)
    pre serde post reports (Some p) w2 ->
  Encoding p <> "" ->
  ParsedPayload (fst (deserializePayload s record payloadType opts st))
  = ParsedPayload p /\
  SchemaID (fst (deserializePayload s record payloadType opts st)) = SchemaID p /\
  (len (payloadFromRecord record payloadType) <= MaxPayloadSize opts ->
   NormalizedPayload (fst (deserializePayload s record payloadType opts st))
   = NormalizedPayload p /\
   IsPayloadTooLarge (fst (deserializePayload s record payloadType opts st))
   = IsPayloadTooLarge p) /\
  (IncludeRawData opts = false ->
   OriginalPayload (fst (deserializePayload s record payloadType opts st))
   = OriginalPayload p).
Proof.
  intros Hlen (Hchain & w1 & Hall & Hok) Hlabel.
  rewrite (deserializePayload_nonempty s record payloadType opts st Hlen).
  destruct st as [w cs]. cbn [world] in *. rewrite Hchain.
  rewrite (trySerDes_firstSuccess record payloadType pre w w1 reports Hall
             serde post (Some p) w2 None None [] cs Hok).
  cbn [fst app]. unfold finishPayload, noSerdeFound.
  apply String.eqb_neq in Hlabel. rewrite Hlabel. cbn [orb].
  destruct (Z.gtb_spec (len (payloadFromRecord record payloadType))
              (MaxPayloadSize opts)) as [Hgt | Hle];
    destruct (Troubleshoot opts), (IncludeRawData opts);
    repeat split; try reflexivity; try discriminate; intros; lia.
Qed.

(** *** [DeserializeRecord] *)

(** X5: on the consumer-offsets topic, when the dedicated decoder returns
    without error its record is the result as it is, and the codec chain is
    not run: no codec is called and the world is the one the decoder left. *)
Theorem DeserializeRecord_consumer_offsets_bypass
    (s : Service C) record opts (st : EngineSt) rec w1 :
  kgo.Topic record = "__consumer_offsets" ->
  deserializeConsumerOffset s record (world st) = ((rec, None), w1) ->
  DeserializeRecord deserializeConsumerOffset recordHeaders s record opts st
  = (rec, {| world := w1; calls := calls st |}).
Proof.
  intros Htopic Hdecoded. unfold DeserializeRecord.
  rewrite Htopic. cbn [String.eqb Ascii.eqb Bool.eqb].
  unfold bind at 1. unfold liftW. rewrite Hdecoded. reflexivity.
Qed.

(** X6: on every other topic the consumer-offsets decoder plays no part:
    the outcome is the same with any decoder in its place. *)
Theorem DeserializeRecord_other_topics_skip_decoder
    (otherDecoder : Service C -> kgo.Record -> M W (option Record * option error))
    (s : Service C) record opts (st : EngineSt) :
  kgo.Topic record <> "__consumer_offsets" ->
  DeserializeRecord deserializeConsumerOffset recordHeaders s record opts st
  = DeserializeRecord otherDecoder recordHeaders s record opts st.
Proof.
  intros Htopic. unfold DeserializeRecord.
  apply String.eqb_neq in Htopic. rewrite Htopic. reflexivity.
Qed.

(** X7: on the general path the key is decoded before the value: the calls
    made are a prefix of the chain on the key followed by a prefix of the
    chain on the value, and the headers are those of the record. *)
Theorem DeserializeRecord_key_before_value
    (s : Service C) record opts (st : EngineSt) :
  generalPath deserializeConsumerOffset s record (world st) ->
  exists key val kn vn,
    fst (DeserializeRecord deserializeConsumerOffset recordHeaders s record opts st)
    = Some {| Key := Some key; Value := Some val;
              Headers := recordHeaders record |} /\
    calls (snd (DeserializeRecord deserializeConsumerOffset recordHeaders
                  s record opts st))
    = calls st
      ++ map (fun c => CallDeserialize c PayloadTypeKey) (firstn kn (SerDes s))
      ++ map (fun c => CallDeserialize c PayloadTypeValue) (firstn vn (SerDes s)).
Proof.
  intros Hgeneral. unfold DeserializeRecord. cbv zeta.
  set (opts' := if MaxPayloadSize opts <=? 0 then _ else opts).
  set (general := bind (deserializePayload s record PayloadTypeKey opts') _).
  assert (Hgen : forall st1 : EngineSt,
    exists key val kn vn,
      fst (general st1)
      = Some {| Key := Some key; Value := Some val;
                Headers := recordHeaders record |} /\
      calls (snd (general st1))
      = calls st1
        ++ map (fun c => CallDeserialize c PayloadTypeKey) (firstn kn (SerDes s))
        ++ map (fun c => CallDeserialize c PayloadTypeValue) (firstn vn (SerDes s))).
  { intros st1. unfold general, bind, ret.
    destruct (deserializePayload_calls_prefix s record PayloadTypeKey opts' st1)
      as (kn & _ & Hkey).
    destruct (deserializePayload s record PayloadTypeKey opts' st1) as [key st2].
    destruct (deserializePayload_calls_prefix s record PayloadTypeValue opts' st2)
      as (vn & _ & Hval).
    destruct (deserializePayload s record PayloadTypeValue opts' st2) as [val st3].
    cbn [fst snd] in *.
    exists key, val, kn, vn. split; [reflexivity|].
    now rewrite Hval, Hkey, <- app_assoc. }
  destruct (String.eqb (kgo.Topic record) "__consumer_offsets") eqn:Htopic.
  - destruct Hgeneral as [Hne | (rec & e & _ & Hfail)].
    + apply String.eqb_eq in Htopic. contradiction.
    + unfold bind, liftW.
      destruct (deserializeConsumerOffset s record (world st)) as [[rec' err'] w1].
      cbn [fst] in Hfail. injection Hfail as -> ->.
      apply (Hgen {| world := w1; calls := calls st |}).
  - apply Hgen.
Qed.

(** *** [SerializeRecord] *)

(** A loop calls codecs of the requested name only. *)
Lemma serializeLoop_calls_named (serdes : list C) input payloadType :
  forall found err res ts (st : EngineSt),
  exists cs,
    calls (snd (serializeLoop serdes input payloadType found err res ts st))
    = calls st ++ map (fun c => CallSerialize c payloadType) cs /\
    Forall (fun c => Name c = InEncoding input) cs.
Proof.
  induction serdes as [|serde rest IH]; intros found err res ts st.
  - exists []. cbn. now rewrite app_nil_r.
  - cbn [serializeLoop].
    destruct (String.eqb (InEncoding input) (Name serde)) eqn:Hname; cbn [negb].
    + apply String.eqb_eq in Hname.
      unfold bind at 1, callSerializeObject.
      destruct (SerializeObject serde (Payload input) payloadType (Options input)
                  (world st)) as [[bytes serErr] w1].
      destruct serErr as [e|].
      * destruct (IH true (Some e) res
                    (ts ++ [{| SerdeName := Name serde; Message := Error e |}])
                    {| world := w1;
                       calls := calls st ++ [CallSerialize serde payloadType] |})
          as (cs & Hcalls & Hnamed).
        exists (serde :: cs). rewrite Hcalls. cbn [calls map].
        split; [now rewrite <- app_assoc | constructor; [now symmetry | exact Hnamed]].
      * exists [serde]. unfold ret. cbn [snd calls map].
        split; [reflexivity | constructor; [now symmetry | constructor]].
    + apply IH.
Qed.

(** A loop that ends found and without error has stored the requested
    label. *)
Lemma serializeLoop_label (serdes : list C) input payloadType :
  forall found err res ts (st : EngineSt),
    (found = true -> err = None -> SerEncoding res = InEncoding input) ->
    forall found' err' res' ts' st',
      serializeLoop serdes input payloadType found err res ts st
      = ((found', err', res', ts'), st') ->
      found' = true -> err' = None -> SerEncoding res' = InEncoding input.
Proof.
  induction serdes as [|serde rest IH];
    intros found err res ts st Hinv found' err' res' ts' st' Hrun.
  - cbn in Hrun. unfold ret in Hrun. injection Hrun as <- <- <- <- <-. exact Hinv.
  - cbn [serializeLoop] in Hrun.
    destruct (String.eqb (InEncoding input) (Name serde)) eqn:Hname; cbn [negb] in Hrun.
    + apply String.eqb_eq in Hname.
      unfold bind at 1, callSerializeObject in Hrun.
      destruct (SerializeObject serde (Payload input) payloadType (Options input)
                  (world st)) as [[bytes serErr] w1].
      destruct serErr as [e|].
      * eapply IH; [|exact Hrun]. intros _ Hx; discriminate Hx.
      * unfold ret in Hrun. injection Hrun as <- <- <- <- <-.
        intros _ _. cbn. now symmetry.
    + apply (IH _ _ _ _ _ Hinv _ _ _ _ _ Hrun).
Qed.

(** X8: [SerializeRecord] selects by exact name: the codecs it calls are
    codecs named as the key's encoding, called on the key, followed by
    codecs named as the value's encoding, called on the value; it calls no
    codec of another name and decodes nothing. *)
Theorem SerializeRecord_calls_named_codecs_only
    (s : Service C) (input : SerializeInput) (st : EngineSt) :
  exists keyCodecs valueCodecs,
    calls (snd (SerializeRecord s input st))
    = calls st
      ++ map (fun c => CallSerialize c PayloadTypeKey) keyCodecs
      ++ map (fun c => CallSerialize c PayloadTypeValue) valueCodecs /\
    Forall (fun c => Name c = InEncoding (InKey input)) keyCodecs /\
    Forall (fun c => Name c = InEncoding (InValue input)) valueCodecs.
Proof.
  destruct (serializeLoop_calls_named (SerDes s)
              (withTopicOption (InTopic input) (InKey input)) PayloadTypeKey
              false None zeroSerResult [] st) as (kcs & Hkey & Hknamed).
  rewrite withTopicOption_encoding in Hknamed.
  fold (keyOutcome s input st) in Hkey.
  destruct (keySideError s input st) as [e|] eqn:Hside.
  - rewrite (SerializeRecord_key_failure s input st e Hside). cbn [snd].
    exists kcs, []. cbn [map]. rewrite app_nil_r.
    now repeat split.
  - rewrite (SerializeRecord_key_success s input st Hside). cbn [snd].
    destruct (serializeLoop_calls_named (SerDes s)
                (withTopicOption (InTopic input) (InValue input)) PayloadTypeValue
                false None zeroSerResult [] (snd (keyOutcome s input st)))
      as (vcs & Hval & Hvnamed).
    rewrite withTopicOption_encoding in Hvnamed.
    fold (valueOutcome s input (snd (keyOutcome s input st))) in Hval.
    exists kcs, vcs. rewrite Hval, Hkey, <- app_assoc. now repeat split.
Qed.

(** X9: when [SerializeRecord] returns a nil error both sides have a result
    and each result is labelled with the encoding that was requested for
    it. *)
Theorem SerializeRecord_success_labels
    (s : Service C) (input : SerializeInput) (st : EngineSt) :
  snd (fst (SerializeRecord s input st)) = None ->
  exists keyRes valRes,
    fst (fst (SerializeRecord s input st))
    = {| OutKey := Some keyRes; OutValue := Some valRes |} /\
    SerEncoding keyRes = InEncoding (InKey input) /\
    SerEncoding valRes = InEncoding (InValue input).
Proof.
  destruct (keySideError s input st) as [e|] eqn:Hkey.
  - rewrite (SerializeRecord_key_failure s input st e Hkey). discriminate.
  - rewrite (SerializeRecord_key_success s input st Hkey). cbn [fst snd].
    intros Hvalue. do 2 eexists. split; [reflexivity|].
    unfold keySideError, valueSideError, keyOutcome, valueOutcome in *.
    destruct (serializeLoop (SerDes s)
                (withTopicOption (InTopic input) (InKey input))
                PayloadTypeKey false None zeroSerResult [] st)
      as [[[[kfound kerr] kres] kts] st1] eqn:Hkrun.
    cbn [fst snd] in *.
    destruct (serializeLoop (SerDes s)
                (withTopicOption (InTopic input) (InValue input))
                PayloadTypeValue false None zeroSerResult [] st1)
      as [[[[vfound verr] vres] vts] st2] eqn:Hvrun.
    cbn [fst snd SerEncoding] in *.
    destruct kfound; [|discriminate Hkey]. destruct vfound; [|discriminate Hvalue].
    cbn [negb] in *. subst kerr verr.
    split.
    + rewrite <- (withTopicOption_encoding (InTopic input) (InKey input)).
      eapply serializeLoop_label; [|exact Hkrun|reflexivity|reflexivity].
      intros Hx; discriminate Hx.
    + rewrite <- (withTopicOption_encoding (InTopic input) (InValue input)).
      eapply serializeLoop_label; [|exact Hvrun|reflexivity|reflexivity].
      intros Hx; discriminate Hx.
Qed.

(** X10: when the key side succeeded and no codec has the name requested
    for the value, [SerializeRecord] fails with the invalid-encoding error
    for the value, calls nothing more, and still returns the key's result
    beside an empty value result. *)
Theorem SerializeRecord_invalid_value_encoding
    (s : Service C) (input : SerializeInput) (st : EngineSt) :
  keySideError s input st = None ->
  (forall c, In c (SerDes s) -> Name c <> InEncoding (InValue input)) ->
  exists keyRes,
    SerializeRecord s input st
    = (({| OutKey := Some keyRes;
           OutValue := Some {| SerEncoding := ""; SerPayload := None;
                               SerTroubleshooting := Some [] |} |},
        Some (ErrorfS "invalid encoding for value" (InEncoding (InValue input)))),
       snd (keyOutcome s input st)) /\
    SerEncoding keyRes = InEncoding (InKey input).
Proof.
  intros Hkey Hno.
  rewrite (SerializeRecord_key_success s input st Hkey).
  assert (Hrun : valueOutcome s input (snd (keyOutcome s input st))
                 = ((false, None, zeroSerResult, []), snd (keyOutcome s input st))).
  { unfold valueOutcome. apply serializeLoop_no_match.
    intros c Hin. rewrite withTopicOption_encoding. now apply Hno. }
  unfold valueSideError. rewrite Hrun. cbn [fst snd negb].
  eexists. split; [reflexivity|].
  unfold keySideError, keyOutcome in *.
  destruct (serializeLoop (SerDes s)
              (withTopicOption (InTopic input) (InKey input))
              PayloadTypeKey false None zeroSerResult [] st)
    as [[[[kfound kerr] kres] kts] st1] eqn:Hkrun.
  cbn [fst snd SerEncoding] in *.
  destruct kfound; [|discriminate Hkey]. cbn [negb] in Hkey. subst kerr.
  rewrite <- (withTopicOption_encoding (InTopic input) (InKey input)).
  eapply serializeLoop_label; [|exact Hkrun|reflexivity|reflexivity].
  intros Hx; discriminate Hx.
Qed.

End Engine.
End ServiceMore.

(** ** More on the Avro framed codec *)

Module AvroMore.

Import Avro.

(** An or with a value shifted past the bits of the other is a sum. *)
Lemma lor_shiftl_add a b k :
  0 <= k -> 0 <= a < 2 ^ k -> Z.lor a (Z.shiftl b k) = a + b * 2 ^ k.
Proof.
  intros Hk Ha.
  rewrite Z.shiftl_mul_pow2 by exact Hk.
  assert (Hdisjoint : Z.land a (b * 2 ^ k) = 0).
  { apply Z.bits_inj'. intros n Hn.
    rewrite Z.land_spec, Z.bits_0.
    destruct (Z.lt_ge_cases n k) as [Hlow | Hhigh].
    - rewrite Z.mul_pow2_bits_low by exact Hlow. apply andb_false_r.
    - rewrite <- (Z.mod_small a (2 ^ k)) by exact Ha.
      rewrite Z.mod_pow2_bits_high by lia. reflexivity. }
  rewrite <- Z.lxor_lor by exact Hdisjoint.
  symmetry. apply Z.add_nocarry_lxor. exact Hdisjoint.
Qed.

Lemma byteZ_range b : 0 <= byteZ b < 256.
Proof.
  unfold byteZ. pose proof (Byte.to_N_bounded b) as Hb. lia.
Qed.

(** X11: the schema identifier of a frame is the big-endian number in its
    bytes 1 to 4, and it is a 32-bit unsigned value. *)
Theorem frameSchemaID_big_endian (magic b1 b2 b3 b4 : byte) (body : list byte) :
  frameSchemaID (Some (magic :: b1 :: b2 :: b3 :: b4 :: body))
  = byteZ b1 * 2 ^ 24 + byteZ b2 * 2 ^ 16 + byteZ b3 * 2 ^ 8 + byteZ b4 /\
  0 <= frameSchemaID (Some (magic :: b1 :: b2 :: b3 :: b4 :: body)) < 2 ^ 32.
Proof.
  unfold frameSchemaID, BigEndian_Uint32, slice.
  cbn [skipn firstn Nat.sub nth].
  pose proof (byteZ_range b1) as H1. pose proof (byteZ_range b2) as H2.
  pose proof (byteZ_range b3) as H3. pose proof (byteZ_range b4) as H4.
  rewrite (lor_shiftl_add (byteZ b4) (byteZ b3) 8) by lia.
  rewrite (lor_shiftl_add _ (byteZ b2) 16) by lia.
  rewrite (lor_shiftl_add _ (byteZ b1) 24) by lia.
  split; lia.
Qed.

Section WithRegistry.

Context {W Schema : Type}.
Variable avro_Unmarshal : Schema -> list byte -> result any.

(** X12: the codec returns a nil error exactly when a schema service is
    configured, the payload is a frame (longer than five bytes, magic byte
    zero), the frame's identifier resolves and the body decodes against the
    schema resolved. *)
Theorem DeserializePayload_succeeds_iff
    (d : AvroSerde W Schema) record payloadType (st : St W) :
  snd (fst (DeserializePayload avro_Unmarshal d record payloadType st)) = None
  <->
  exists svc schema w' obj,
    SchemaService_ d = Some svc /\
    wellFramed (payloadFromRecord record payloadType) /\
    GetAvroSchemaByID svc (frameSchemaID (payloadFromRecord record payloadType))
      (registry st) = (Ok schema, w') /\
    avro_Unmarshal schema (slice_from (payloadFromRecord record payloadType) 5)
    = Ok obj.
Proof.
  split.
  - unfold DeserializePayload.
    destruct (SchemaService_ d) as [svc|]; [|discriminate].
    destruct (Z.leb_spec (len (payloadFromRecord record payloadType)) 5)
      as [Hle|Hgt]; [discriminate|].
    destruct (Byte.eqb (index (payloadFromRecord record payloadType) 0) x00)
      eqn:Hmagic; [|discriminate].
    apply Byte.byte_dec_bl in Hmagic. cbn [negb].
    unfold bind, callGetAvroSchemaByID.
    destruct (GetAvroSchemaByID svc
                (BigEndian_Uint32 (slice (payloadFromRecord record payloadType) 1 5))
                (registry st)) as [[schema | e] w'] eqn:Hres; [|discriminate].
    destruct (avro_Unmarshal schema
                (slice_from (payloadFromRecord record payloadType) 5))
      as [obj | e] eqn:Hdec; [|discriminate].
    intros _. exists svc, schema, w', obj.
    unfold wellFramed, frameSchemaID. auto.
  - intros (svc & schema & w' & obj & Hsvc & Hframe & Hres & Hdec).
    destruct d as [svc0]. cbn in Hsvc. subst svc0.
    now rewrite (AvroFacts.DeserializePayload_success avro_Unmarshal svc record
                   payloadType st schema w' obj Hframe Hres Hdec).
Qed.

(** X13: one call of the codec makes at most one lookup, and then of the
    identifier the frame carries; a call that makes none leaves the
    registry as it was; and a call that returns an error returns the zero
    payload with it. *)
Theorem DeserializePayload_at_most_one_lookup
    (d : AvroSerde W Schema) record payloadType (st : St W) :
  (snd (DeserializePayload avro_Unmarshal d record payloadType st) = st \/
   lookups (snd (DeserializePayload avro_Unmarshal d record payloadType st))
   = lookups st ++ [frameSchemaID (payloadFromRecord record payloadType)]) /\
  (snd (fst (DeserializePayload avro_Unmarshal d record payloadType st)) <> None ->
   fst (fst (DeserializePayload avro_Unmarshal d record payloadType st)) = zeroRP).
Proof.
  unfold DeserializePayload.
  destruct (SchemaService_ d) as [svc|]; [|split; [now left | reflexivity]].
  destruct (len (payloadFromRecord record payloadType) <=? 5);
    [split; [now left | reflexivity]|].
  destruct (negb (Byte.eqb (index (payloadFromRecord record payloadType) 0) x00));
    [split; [now left | reflexivity]|].
  unfold bind, callGetAvroSchemaByID, frameSchemaID.
  destruct (GetAvroSchemaByID svc
              (BigEndian_Uint32 (slice (payloadFromRecord record payloadType) 1 5))
              (registry st)) as [[schema | e] w'];
    [|split; [now right | reflexivity]].
  destruct (avro_Unmarshal schema
              (slice_from (payloadFromRecord record payloadType) 5)) as [obj | e].
  - split; [now right|]. intros Herr. now contradiction Herr.
  - split; [now right | reflexivity].
Qed.

End WithRegistry.
End AvroMore.

(** ** The Avro codec in the chain *)

Module AvroInChainFacts.

Import Service ServiceFacts.

Section WithRegistry.

Context {W Schema OtherCodec : Type}.
Context (otherSerde : Serde (Avro.St W) OtherCodec).
Variable avro_Unmarshal : Schema -> list byte -> result any.
Variable avroSerializeObject :
  Avro.AvroSerde W Schema -> any -> PayloadType -> list SerdeOpt
  -> M (Avro.St W) (bytes * option error).

#[local] Instance chainSerde
  : Serde (Avro.St W) (Avro.AvroSerde W Schema + OtherCodec) :=
  AvroInChain.SumSerde
    (AvroInChain.AvroIsSerde W Schema avro_Unmarshal avroSerializeObject)
    otherSerde.

(** A payload that is no frame makes the codec fail, with the world as it
    was. *)
Lemma DeserializePayload_unframed (d : Avro.AvroSerde W Schema) record payloadType
    (w : Avro.St W) :
  len (payloadFromRecord record payloadType) <= 5 \/
  index (payloadFromRecord record payloadType) 0 <> x00 ->
  exists e,
    DeserializePayload (inl d : Avro.AvroSerde W Schema + OtherCodec)
      record payloadType w
    = ((Some zeroRP, Some e), w).
Proof.
  intros Hbad. cbn [DeserializePayload chainSerde AvroInChain.SumSerde
                      AvroInChain.AvroIsSerde].
  unfold bind, Avro.DeserializePayload.
  destruct (Avro.SchemaService_ d) as [svc|]; [|eexists; reflexivity].
  destruct (Z.leb_spec (len (payloadFromRecord record payloadType)) 5) as [Hle|Hgt].
  - eexists; reflexivity.
  - destruct Hbad as [Hlen|Hmagic]; [lia|].
    destruct (Byte.eqb (index (payloadFromRecord record payloadType) 0) x00) eqn:E.
    + apply Byte.byte_dec_bl in E. contradiction.
    + eexists; reflexivity.
Qed.

Lemma finishPayload_label_reports payload opts rp err ts ts' :
  Encoding (finishPayload payload opts rp err ts)
  = Encoding (finishPayload payload opts rp err ts').
Proof.
  unfold finishPayload.
  destruct (noSerdeFound rp err), (Troubleshoot opts), (IncludeRawData opts),
    (len payload >? MaxPayloadSize opts); reflexivity.
Qed.

Lemma finishPayload_requested payload opts rp err ts :
  Troubleshoot opts = true ->
  Troubleshooting (finishPayload payload opts rp err ts) = Some ts.
Proof.
  intros Hts. unfold finishPayload. rewrite Hts.
  destruct (noSerdeFound rp err), (IncludeRawData opts),
    (len payload >? MaxPayloadSize opts); reflexivity.
Qed.

(** X14: in front of any chain, the Avro codec lets through what is no
    frame: for a payload that is not empty and has at most five bytes or
    another first byte than 0x00, the engine gives the label it gives
    without the Avro codec and leaves the same world (no registry lookup is
    made for Avro); the Avro codec is called once, first, and, when
    troubleshooting is requested, its report comes first under the name
    "avro". *)
Theorem unframed_payload_falls_through_avro
    (d : Avro.AvroSerde W Schema)
    (rest : list (Avro.AvroSerde W Schema + OtherCodec))
    record payloadType opts (st : EngineSt) :
  len (payloadFromRecord record payloadType) <> 0 ->
  len (payloadFromRecord record payloadType) <= 5 \/
  index (payloadFromRecord record payloadType) 0 <> x00 ->
  let with_avro :=
    deserializePayload {| SerDes := inl d :: rest |} record payloadType opts st in
  let without :=
    deserializePayload {| SerDes := rest |} record payloadType opts st in
  Encoding (fst with_avro) = Encoding (fst without) /\
  world (snd with_avro) = world (snd without) /\
  (exists later,
      calls (snd without) = calls st ++ later /\
      calls (snd with_avro)
      = calls st ++ CallDeserialize (inl d) payloadType :: later) /\
  (Troubleshoot opts = true ->
   exists e ts,
     Troubleshooting (fst without) = Some ts /\
     Troubleshooting (fst with_avro)
     = Some ({| SerdeName := payloadEncodingAvro; Message := Error e |} :: ts)).
Proof.
  intros Hlen Hbad. cbv zeta.
  rewrite !(deserializePayload_nonempty _ record payloadType opts st Hlen).
  destruct st as [w cs]. cbn [SerDes world calls].
  destruct (DeserializePayload_unframed d record payloadType w Hbad) as [e Havro].
  destruct (chain_outcome record payloadType rest w)
    as [(w' & reports & Hall) | (pre & serde & post & reports & rp & w2
                                  & Hchain & w1 & Hall & Hok)].
  - pose proof (allFail_cons record payloadType _ _ _ _ _ _ _ _ Havro Hall) as Hall'.
    change (Name (inl d)) with payloadEncodingAvro in Hall'.
    destruct (trySerDes_allFail record payloadType rest w w' reports Hall
                None None [] cs eq_refl) as (rp1 & err1 & Heq1 & Hnone1).
    destruct (trySerDes_allFail record payloadType _ w w' _ Hall'
                None None [] cs eq_refl) as (rp2 & err2 & Heq2 & Hnone2).
    rewrite Heq1, Heq2. cbn [fst snd world calls app map].
    destruct (finishPayload_binary (payloadFromRecord record payloadType) opts
                rp1 err1 reports Hnone1) as [Hl1 Ht1].
    destruct (finishPayload_binary (payloadFromRecord record payloadType) opts
                rp2 err2
                ({| SerdeName := payloadEncodingAvro; Message := Error e |} :: reports)
                Hnone2) as [Hl2 Ht2].
    split; [now rewrite Hl1, Hl2|]. split; [reflexivity|].
    split; [eexists; split; reflexivity|].
    intros _. exists e, reports. now split.
  - pose proof (allFail_cons record payloadType _ _ _ _ _ _ _ _ Havro Hall) as Hall'.
    change (Name (inl d)) with payloadEncodingAvro in Hall'.
    rewrite Hchain.
    rewrite (trySerDes_firstSuccess record payloadType pre w w1 reports Hall
               serde post rp w2 None None [] cs Hok).
    change (inl d :: pre ++ serde :: post) with ((inl d :: pre) ++ serde :: post).
    rewrite (trySerDes_firstSuccess record payloadType (inl d :: pre) w w1 _ Hall'
               serde post rp w2 None None [] cs Hok).
    cbn [fst snd world calls app map].
    split; [apply finishPayload_label_reports|]. split; [reflexivity|].
    split; [eexists; split; reflexivity|].
    intros Hts. exists e, reports.
    split; apply finishPayload_requested; exact Hts.
Qed.

End WithRegistry.
End AvroInChainFacts.

(** ** More on the registry client *)

Module SchemaExtra.

Import Schema SchemaMore SchemaFacts.

(** X15: when the request of an operation fails in the transport, the
    operation returns an error that wraps the transport's error
    ([CheckConnectivity] returns it as it is); no operation, [GetSubjects]
    included, takes a failed request for a success. *)
Theorem transport_failure_is_returned
    (c : Client) (sched : Schedule) (op : Operation) err :
  requestError c op = Some err ->
  match op with
  | OpCheckConnectivity => returnedError c sched op = Some err
  | _ => exists what, returnedError c sched op = Some (Wrapf what err)
  end.
Proof.
  destruct op; cbn [requestError returnedError];
    unfold GetSchemaByID, GetSchemaBySubject, GetSubjects, GetSubjectVersions,
      GetMode, GetConfig, GetSubjectConfig, DeleteSubject, DeleteSubjectVersion,
      GetSchemaTypes, GetSchemas, CreateSchema, CheckConnectivity;
    match goal with
    | |- failure ?r = _ -> _ =>
        destruct r as [res | e]; cbn [failure]; intros Hfail;
        [discriminate Hfail | injection Hfail as ->]
    end;
    cbn [errorOf]; try (eexists; reflexivity); reflexivity.
Qed.

(** X16: a schema [GetSchemaBySubject] returns never has an empty type: a
    response without type tag is returned as "AVRO", a response with one is
    returned with it, and the other fields are those of the response. *)
Theorem GetSchemaBySubject_type_never_empty
    (c : Client) subject version showSoftDeleted r :
  GetSchemaBySubject c subject version showSoftDeleted = Ok r ->
  SchemaVersionedResponse.Type_ r <> "" /\
  exists res parsed,
    GET_subjects_subject_versions_version c subject version showSoftDeleted
    = Ok res /\
    IsError res = false /\
    ResultObj res = Some parsed /\
    SchemaVersionedResponse.Type_ r
    = (if String.eqb (SchemaVersionedResponse.Type_ parsed) ""
       then "AVRO" else SchemaVersionedResponse.Type_ parsed) /\
    SchemaVersionedResponse.Subject r = SchemaVersionedResponse.Subject parsed /\
    SchemaVersionedResponse.SchemaID r = SchemaVersionedResponse.SchemaID parsed /\
    SchemaVersionedResponse.Version r = SchemaVersionedResponse.Version parsed /\
    SchemaVersionedResponse.Schema r = SchemaVersionedResponse.Schema parsed /\
    SchemaVersionedResponse.References r
    = SchemaVersionedResponse.References parsed.
Proof.
  unfold GetSchemaBySubject.
  destruct (GET_subjects_subject_versions_version c subject version showSoftDeleted)
    as [res | err]; [|discriminate].
  destruct (IsError res) eqn:Hstatus; [discriminate|].
  destruct (ResultObj res) as [parsed|] eqn:Hparsed; [|discriminate].
  destruct (String.eqb (SchemaVersionedResponse.Type_ parsed) "") eqn:Htype;
    intros Hr; injection Hr as <-.
  - split; [cbn; discriminate|].
    exists res, parsed. rewrite Htype. cbn. repeat split; assumption.
  - split; [now apply String.eqb_neq|].
    exists res, parsed. rewrite Htype. repeat split; assumption.
Qed.

(** X17: [GetSchemas] falls back on not-found only: when the bulk endpoint
    answers with any other status the result is decided by that answer
    alone, whatever the other endpoints of the registry would say and
    whatever the schedule: the list received on a success status, an error
    on an error status. *)
Theorem GetSchemas_without_fallback
    (c c' : Client) (sched sched' : Schedule) showSoftDeleted res :
  GET_schemas c showSoftDeleted = Ok res ->
  GET_schemas c' showSoftDeleted = Ok res ->
  StatusCode res <> http_StatusNotFound ->
  GetSchemas c sched showSoftDeleted = GetSchemas c' sched' showSoftDeleted /\
  (IsError res = false -> GetSchemas c sched showSoftDeleted = Ok (target [] res)) /\
  (IsError res = true -> is_err (GetSchemas c sched showSoftDeleted) = true).
Proof.
  intros Hc Hc' Hstatus. unfold GetSchemas. rewrite Hc, Hc'.
  apply Z.eqb_neq in Hstatus. rewrite Hstatus.
  split; [reflexivity|]. split; intros ->; reflexivity.
Qed.

(** The receiving loop stops at the first failure to arrive. *)
Lemma receiveAll_first_failure fetched e rest :
  forall schemas,
    receiveAll (map Ok fetched ++ Err e :: rest) schemas
    = Err (Wrapf "failed to fetch at least one schema" e).
Proof.
  induction fetched as [|r fetched IH]; intros schemas.
  - reflexivity.
  - cbn [map app receiveAll]. apply IH.
Qed.

(** X18: of several fetches that fail, the fallback reports the one whose
    result arrives first: when the results arrive as some successes followed
    by a failure, the error returned wraps that failure, whatever arrives
    after it. *)
Theorem GetSchemasIndividually_reports_first_arrived_failure
    (c : Client) (sched : Schedule) showSoftDeleted subjects fetched e rest :
  GetSubjects c showSoftDeleted = Ok {| SubjectsResponse.Subjects := subjects |} ->
  arrival sched
    (map (fun s => GetSchemaBySubject c s "latest" showSoftDeleted) subjects)
  = map Ok fetched ++ Err e :: rest ->
  GetSchemasIndividually c sched showSoftDeleted
  = Err (Wrapf "failed to fetch at least one schema" e).
Proof.
  intros Hsubjects Harrival. unfold GetSchemasIndividually.
  rewrite Hsubjects. cbn [SubjectsResponse.Subjects].
  rewrite Harrival. apply receiveAll_first_failure.
Qed.

(** X19: the fallback takes the subjects from the result object of the
    /subjects response and does not look at its status: after a not-found
    on the bulk endpoint the schemas are fetched for the subjects of that
    object, and when it holds no subject the listing is the empty list, also
    if /subjects answered with an error status. *)
Theorem GetSchemas_fallback_reads_subjects_whatever_the_status
    (c : Client) (sched : Schedule) showSoftDeleted res subjectsRes subjects :
  GET_schemas c showSoftDeleted = Ok res ->
  StatusCode res = http_StatusNotFound ->
  GET_subjects c showSoftDeleted = Ok subjectsRes ->
  ResultObj subjectsRes = Some subjects ->
  GetSchemas c sched showSoftDeleted
  = receiveAll
      (arrival sched
         (map (fun s => GetSchemaBySubject c s "latest" showSoftDeleted) subjects))
      [] /\
  (subjects = [] -> GetSchemas c sched showSoftDeleted = Ok []).
Proof.
  intros Hbulk Hstatus Hsubjects Hparsed.
  assert (Hrun : GetSchemas c sched showSoftDeleted
                 = receiveAll
                     (arrival sched
                        (map (fun s => GetSchemaBySubject c s "latest" showSoftDeleted)
                             subjects)) []).
  { unfold GetSchemas. rewrite Hbulk, Hstatus. cbn [Z.eqb Pos.eqb http_StatusNotFound].
    unfold GetSchemasIndividually, GetSubjects. now rewrite Hsubjects, Hparsed. }
  split; [exact Hrun|].
  intros ->. rewrite Hrun.
  pose proof (arrival_perm sched
                (map (fun s => GetSchemaBySubject c s "latest" showSoftDeleted) []))
    as Hperm.
  apply Permutation_sym, Permutation_nil in Hperm. now rewrite Hperm.
Qed.

End SchemaExtra.

(** ** The progress reporter *)

Module ReporterFacts.

Import Reporter.

Lemma wrap64_add_l a b : wrap64 (wrap64 a + b) = wrap64 (a + b).
Proof.
  unfold wrap64.
  replace ((a + 2 ^ 63) mod 2 ^ 64 - 2 ^ 63 + b + 2 ^ 63)
    with ((a + 2 ^ 63) mod 2 ^ 64 + b) by lia.
  rewrite Z.add_mod_idemp_l by lia.
  f_equal. f_equal. lia.
Qed.

Lemma wrap64_small z : - 2 ^ 63 <= z < 2 ^ 63 -> wrap64 z = z.
Proof.
  intros Hz. unfold wrap64. rewrite Z.mod_small by lia. lia.
Qed.

(** The counters along a sequence of calls. *)
Lemma run_counters cs :
  forall p m b,
    messagesConsumed p = wrap64 m ->
    bytesConsumed p = wrap64 b ->
    messagesConsumed (run p cs)
    = wrap64 (m + Z.of_nat (length (consumedSizes cs))) /\
    bytesConsumed (run p cs) = wrap64 (b + sum (consumedSizes cs)).
Proof.
  induction cs as [|c cs IH]; intros p m b Hm Hb.
  - cbn. now rewrite !Z.add_0_r.
  - destruct c; cbn [run fold_left step consumedSizes];
      try (apply (IH _ m b); cbn; assumption).
    destruct (IH (OnMessageConsumed p size) (m + 1) (b + size)) as [Hm' Hb'].
    + cbn. now rewrite Hm, wrap64_add_l.
    + cbn. now rewrite Hb, wrap64_add_l.
    + unfold run in *. rewrite Hm', Hb'. cbn [length sum fold_right].
      split; f_equal; [lia|]. unfold sum. lia.
Qed.

Lemma run_app p cs1 cs2 : run p (cs1 ++ cs2) = run (run p cs1) cs2.
Proof. unfold run. apply fold_left_app. Qed.

(** X20: the counters of a reporter count what was consumed: after any
    sequence of calls on a new reporter the message counter is the number
    of [OnMessageConsumed] calls and the byte counter the sum of their
    sizes, both as [int64] (exact while they stay below 2^63); a progress
    report and the completion message carry the counters as they stand at
    that point. *)
Theorem counters_count_what_was_consumed filterInterpreterCode cs :
  let p := run (newReporter filterInterpreterCode) cs in
  let n := Z.of_nat (length (consumedSizes cs)) in
  let total := sum (consumedSizes cs) in
  messagesConsumed p = wrap64 n /\
  bytesConsumed p = wrap64 total /\
  (n < 2 ^ 63 -> messagesConsumed p = n) /\
  (- 2 ^ 63 <= total < 2 ^ 63 -> bytesConsumed p = total) /\
  stream (run (newReporter filterInterpreterCode) (cs ++ [CallReportProgress]))
  = stream p ++ [Progress (wrap64 n) (wrap64 total)] /\
  (forall elapsedMs isCancelled,
      stream (OnComplete p elapsedMs isCancelled)
      = stream p ++ [Done elapsedMs isCancelled (wrap64 n) (wrap64 total)]).
Proof.
  cbv zeta.
  destruct (run_counters cs (newReporter filterInterpreterCode) 0 0
              eq_refl eq_refl) as [Hm Hb].
  rewrite !Z.add_0_l in *.
  split; [exact Hm|]. split; [exact Hb|].
  split; [intros Hn; rewrite Hm; apply wrap64_small; lia|].
  split; [intros Ht; rewrite Hb; now apply wrap64_small|].
  split.
  - rewrite run_app. cbn [run fold_left step]. unfold reportProgress, send.
    cbn [stream]. fold (run (newReporter filterInterpreterCode) cs).
    now rewrite Hm, Hb.
  - intros elapsedMs isCancelled. unfold OnComplete, send. cbn [stream].
    now rewrite Hm, Hb.
Qed.

End ReporterFacts.

(** ** The further properties at work *)

Module MoreRuns.

Import Service Fixtures MoreFixtures ServiceMore.

(** An absent key. *)
Lemma deserializePayload_empty_witness :
  len (payloadFromRecord frame7Record PayloadTypeKey) = 0 /\
  snd (deserializePayload stubService frame7Record PayloadTypeKey verboseOpts
         engineSt0) = engineSt0 /\
  Encoding (fst (deserializePayload stubService frame7Record PayloadTypeKey
                   verboseOpts engineSt0)) = PayloadEncodingNone /\
  IsPayloadTooLarge (fst (deserializePayload stubService frame7Record
                            PayloadTypeKey verboseOpts engineSt0)) = false /\
  Troubleshooting (fst (deserializePayload stubService frame7Record
                          PayloadTypeKey verboseOpts engineSt0)) = None /\
  ParsedPayload (fst (deserializePayload stubService frame7Record PayloadTypeKey
                        verboseOpts engineSt0)) = ANil.
Proof.
  assert (Hzero : len (payloadFromRecord frame7Record PayloadTypeKey) = 0)
    by reflexivity.
  split; [exact Hzero|].
  exact (deserializePayload_empty stubService frame7Record PayloadTypeKey
           verboseOpts engineSt0 Hzero).
Defined.

(** The text value with troubleshooting requested. *)
Lemma deserializePayload_reports_name_the_failed_prefix_witness :
  len (payloadFromRecord textRecord PayloadTypeValue) <> 0 /\
  Troubleshoot verboseOpts = true /\
  exists failed ts w1,
    allFail textRecord PayloadTypeValue failed (world engineSt0) w1 ts /\
    length ts = length failed /\
    map SerdeName ts = map Name failed /\
    Troubleshooting (fst (deserializePayload stubService textRecord
                            PayloadTypeValue verboseOpts engineSt0))
    = Some ts /\
    ((SerDes stubService = failed /\
      calls (snd (deserializePayload stubService textRecord PayloadTypeValue
                    verboseOpts engineSt0))
      = calls engineSt0 ++ map (fun c => CallDeserialize c PayloadTypeValue) failed)
     \/
     (exists winner post rp w2,
         SerDes stubService = failed ++ winner :: post /\
         DeserializePayload winner textRecord PayloadTypeValue w1
         = ((rp, None), w2) /\
         calls (snd (deserializePayload stubService textRecord PayloadTypeValue
                       verboseOpts engineSt0))
         = calls engineSt0
           ++ map (fun c => CallDeserialize c PayloadTypeValue)
                (failed ++ [winner]))).
Proof.
  assert (Hlen : len (payloadFromRecord textRecord PayloadTypeValue) <> 0)
    by (vm_compute; discriminate).
  split; [exact Hlen|]. split; [reflexivity|].
  exact (deserializePayload_reports_name_the_failed_prefix stubService textRecord
           PayloadTypeValue verboseOpts engineSt0 Hlen eq_refl).
Defined.

(** There the one failure is the JSON codec's, and its report the only
    one. *)
Example deserializePayload_reports_run :
  Troubleshooting (fst (deserializePayload stubService textRecord
                          PayloadTypeValue verboseOpts engineSt0))
  = Some [ {| SerdeName := "json";
              Message := "first byte indicates this it not valid JSON" |} ].
Proof. reflexivity. Qed.

Lemma textRecord_firstSuccess :
  firstSuccess textRecord PayloadTypeValue (SerDes stubService) (world engineSt0)
    [Failing "json" "first byte indicates this it not valid JSON"]
    (Succeeding "text" "text") [Succeeding "uint" "uint"]
    [{| SerdeName := "json";
        Message := "first byte indicates this it not valid JSON" |}]
    (Some (stubRP "text" (Some [x68; x69; x21]))) 2%nat.
Proof.
  split; [reflexivity|]. exists 1%nat. split; [|reflexivity].
  exact (allFail_cons textRecord PayloadTypeValue
           (Failing "json" "first byte indicates this it not valid JSON") []
           0%nat None
           (Errorf "first byte indicates this it not valid JSON") 1%nat 1%nat []
           eq_refl (allFail_nil _ _ _)).
Defined.

(** The text codec's parsed value and schema identifier, handed through
    also past the size limit. *)
Lemma deserializePayload_passes_winner_through_witness :
  len (payloadFromRecord textRecord PayloadTypeValue) <> 0 /\
  Encoding (stubRP "text" (Some [x68; x69; x21])) <> "" /\
  ParsedPayload (fst (deserializePayload stubService textRecord PayloadTypeValue
                        tinyOpts engineSt0))
  = ABytes [x68; x69; x21] /\
  SchemaID (fst (deserializePayload stubService textRecord PayloadTypeValue
                   tinyOpts engineSt0)) = None.
Proof.
  assert (Hlen : len (payloadFromRecord textRecord PayloadTypeValue) <> 0)
    by (vm_compute; discriminate).
  assert (Hlabel : Encoding (stubRP "text" (Some [x68; x69; x21])) <> "")
    by (cbn; discriminate).
  split; [exact Hlen|]. split; [exact Hlabel|].
  destruct (deserializePayload_passes_winner_through stubService textRecord
              PayloadTypeValue tinyOpts engineSt0 _ _ _ _ _ _
              Hlen textRecord_firstSuccess Hlabel) as (Hparsed & Hschema & _).
  split; [exact Hparsed | exact Hschema].
Defined.

(** A record of the consumer-offsets topic, decoded. *)
Lemma DeserializeRecord_consumer_offsets_bypass_witness :
  kgo.Topic offsetsRecord = "__consumer_offsets" /\
  DeserializeRecord offsetDecoder kgo.Headers stubService offsetsRecord
    quietOpts engineSt0
  = (Some offsetsDecoded, engineSt0).
Proof.
  split; [reflexivity|].
  exact (DeserializeRecord_consumer_offsets_bypass offsetDecoder kgo.Headers
           stubService offsetsRecord quietOpts engineSt0
           (Some offsetsDecoded) 0%nat eq_refl eq_refl).
Defined.

Lemma DeserializeRecord_other_topics_skip_decoder_witness :
  kgo.Topic textRecord <> "__consumer_offsets" /\
  DeserializeRecord offsetDecoder kgo.Headers stubService textRecord
    quietOpts engineSt0
  = DeserializeRecord noConsumerOffset kgo.Headers stubService textRecord
      quietOpts engineSt0.
Proof.
  assert (Htopic : kgo.Topic textRecord <> "__consumer_offsets")
    by (cbn; discriminate).
  split; [exact Htopic|].
  exact (DeserializeRecord_other_topics_skip_decoder offsetDecoder kgo.Headers
           noConsumerOffset stubService textRecord quietOpts engineSt0 Htopic).
Defined.

(** The consumer-offsets record with a decoder that does not know it. *)
Lemma DeserializeRecord_key_before_value_witness :
  generalPath noConsumerOffset stubService offsetsRecord (world engineSt0) /\
  exists key val kn vn,
    fst (DeserializeRecord noConsumerOffset kgo.Headers stubService offsetsRecord
           quietOpts engineSt0)
    = Some {| Key := Some key; Value := Some val;
              Headers := kgo.Headers offsetsRecord |} /\
    calls (snd (DeserializeRecord noConsumerOffset kgo.Headers stubService
                  offsetsRecord quietOpts engineSt0))
    = calls engineSt0
      ++ map (fun c => CallDeserialize c PayloadTypeKey)
           (firstn kn (SerDes stubService))
      ++ map (fun c => CallDeserialize c PayloadTypeValue)
           (firstn vn (SerDes stubService)).
Proof.
  assert (Hgeneral : generalPath noConsumerOffset stubService offsetsRecord
                       (world engineSt0)).
  { right. exists None, (Errorf "not a consumer offset record").
    split; reflexivity. }
  split; [exact Hgeneral|].
  exact (DeserializeRecord_key_before_value noConsumerOffset kgo.Headers
           stubService offsetsRecord quietOpts engineSt0 Hgeneral).
Defined.

Lemma SerializeRecord_success_labels_witness :
  snd (fst (SerializeRecord stubService textInput engineSt0)) = None /\
  exists keyRes valRes,
    fst (fst (SerializeRecord stubService textInput engineSt0))
    = {| OutKey := Some keyRes; OutValue := Some valRes |} /\
    SerEncoding keyRes = "text" /\ SerEncoding valRes = "uint".
Proof.
  split; [reflexivity|].
  exact (SerializeRecord_success_labels stubService textInput engineSt0 eq_refl).
Defined.

Lemma SerializeRecord_invalid_value_encoding_witness :
  keySideError stubService badValueInput engineSt0 = None /\
  (forall c, In c (SerDes stubService) ->
             Name c <> InEncoding (InValue badValueInput)) /\
  exists keyRes,
    SerializeRecord stubService badValueInput engineSt0
    = (({| OutKey := Some keyRes;
           OutValue := Some {| SerEncoding := ""; SerPayload := None;
                               SerTroubleshooting := Some [] |} |},
        Some (ErrorfS "invalid encoding for value" "nada")),
       snd (keyOutcome stubService badValueInput engineSt0)) /\
    SerEncoding keyRes = "text".
Proof.
  assert (Hno : forall c, In c (SerDes stubService) ->
                          Name c <> InEncoding (InValue badValueInput)).
  { intros c [<-|[<-|[<-|[]]]]; cbn; discriminate. }
  split; [reflexivity|]. split; [exact Hno|].
  exact (SerializeRecord_invalid_value_encoding stubService badValueInput
           engineSt0 eq_refl Hno).
Defined.

(** The three-byte text value through a chain of the Avro codec and a text
    codec. *)
Lemma unframed_payload_falls_through_avro_witness :
  len (payloadFromRecord textRecord PayloadTypeValue) <> 0 /\
  (len (payloadFromRecord textRecord PayloadTypeValue) <= 5 \/
   index (payloadFromRecord textRecord PayloadTypeValue) 0 <> x00) /\
  Encoding
    (fst (deserializePayload
            (H := AvroInChainFacts.chainSerde TextStubSerde unmarshalString
                    noAvroEncoder)
            {| SerDes := [inl avroCodec; inr TextCodec] |}
            textRecord PayloadTypeValue quietOpts avroEngineSt0))
  = "text" /\
  world
    (snd (deserializePayload
            (H := AvroInChainFacts.chainSerde TextStubSerde unmarshalString
                    noAvroEncoder)
            {| SerDes := [inl avroCodec; inr TextCodec] |}
            textRecord PayloadTypeValue quietOpts avroEngineSt0))
  = avroSt0.
Proof.
  assert (Hlen : len (payloadFromRecord textRecord PayloadTypeValue) <> 0)
    by (vm_compute; discriminate).
  assert (Hbad : len (payloadFromRecord textRecord PayloadTypeValue) <= 5 \/
                 index (payloadFromRecord textRecord PayloadTypeValue) 0 <> x00)
    by (left; vm_compute; discriminate).
  split; [exact Hlen|]. split; [exact Hbad|].
  destruct (AvroInChainFacts.unframed_payload_falls_through_avro TextStubSerde
              unmarshalString noAvroEncoder avroCodec [inr TextCodec]
              textRecord PayloadTypeValue quietOpts avroEngineSt0 Hlen Hbad)
    as (Hlabel & Hworld & _).
  split; [rewrite Hlabel | rewrite Hworld]; reflexivity.
Defined.

Import Schema SchemaMore SchemaExtra.

Lemma transport_failure_is_returned_witness :
  requestError unreachableRegistry (OpGetSubjects false)
  = Some (Errorf "dial tcp 127.0.0.1:8081: connect: connection refused") /\
  exists what,
    returnedError unreachableRegistry inOrder (OpGetSubjects false)
    = Some (Wrapf what
              (Errorf "dial tcp 127.0.0.1:8081: connect: connection refused")).
Proof.
  split; [reflexivity|].
  exact (transport_failure_is_returned unreachableRegistry inOrder
           (OpGetSubjects false) _ eq_refl).
Defined.

Lemma GetSchemaBySubject_type_never_empty_witness :
  exists r,
    GetSchemaBySubject oldRegistry "A" "latest" false = Ok r /\
    SchemaVersionedResponse.Type_ r = "AVRO" /\
    SchemaVersionedResponse.Type_ r <> "".
Proof.
  eexists. split; [reflexivity|]. split; [reflexivity|].
  exact (proj1 (GetSchemaBySubject_type_never_empty oldRegistry "A" "latest"
                  false _ eq_refl)).
Defined.

Lemma GetSchemas_without_fallback_witness :
  GET_schemas brokenRegistry false = down None /\
  StatusCode (mkResponse (T := list SchemaVersionedResponse.t) 500
                (Some (50001, "Error in the backend data store")) None "")
  <> http_StatusNotFound /\
  GetSchemas brokenRegistry inOrder false = GetSchemas brokenRegistry reversed false.
Proof.
  split; [reflexivity|].
  assert (Hstatus :
    StatusCode (mkResponse (T := list SchemaVersionedResponse.t) 500
                  (Some (50001, "Error in the backend data store")) None "")
    <> http_StatusNotFound) by (cbn; discriminate).
  split; [exact Hstatus|].
  exact (proj1 (GetSchemas_without_fallback brokenRegistry brokenRegistry
                  inOrder reversed false _ eq_refl eq_refl Hstatus)).
Defined.

(** Subjects A, B, C with B failing, results in order: A arrives, then B's
    failure is reported, and C's result is not waited for. *)
Lemma GetSchemasIndividually_reports_first_arrived_failure_witness :
  GetSubjects oldRegistry false
  = Ok {| SubjectsResponse.Subjects := ["A"; "B"; "C"] |} /\
  GetSchemasIndividually oldRegistry inOrder false
  = Err (Wrapf "failed to fetch at least one schema"
           (RestErr 50001 "Error in the backend data store")).
Proof.
  split; [reflexivity|].
  exact (GetSchemasIndividually_reports_first_arrived_failure oldRegistry inOrder
           false ["A"; "B"; "C"]
           [ {| SchemaVersionedResponse.Subject := "A";
                SchemaVersionedResponse.SchemaID := 1;
                SchemaVersionedResponse.Version := 1;
                SchemaVersionedResponse.Schema := "{}";
                SchemaVersionedResponse.Type_ := "AVRO";
                SchemaVersionedResponse.References := [] |} ]
           (RestErr 50001 "Error in the backend data store")
           [ GetSchemaBySubject oldRegistry "C" "latest" false ]
           eq_refl eq_refl).
Defined.

Lemma GetSchemas_fallback_reads_subjects_whatever_the_status_witness :
  GET_schemas halfBrokenRegistry false = notFound /\
  GET_subjects halfBrokenRegistry false = down (Some []) /\
  GetSchemas halfBrokenRegistry inOrder false = Ok [].
Proof.
  split; [reflexivity|]. split; [reflexivity|].
  exact (proj2 (GetSchemas_fallback_reads_subjects_whatever_the_status
                  halfBrokenRegistry inOrder false _ _ [] eq_refl eq_refl
                  eq_refl eq_refl) eq_refl).
Defined.

End MoreRuns.
